(** * Lifestyle obesity-risk calculator (app.py)

    A shallow embedding of the helpers and of the two button handlers of the
    Streamlit application, and the properties its specification states about
    them.

    Numbers are modelled as Python has them: [int] is [Z], [float] is the
    binary64 format of the kernel's primitive floats, whose operations are
    specified by [FloatAxioms] over [spec_float].  Strings are byte (UTF-8)
    strings; every needle the program searches for is ASCII, so a match on
    bytes is a match on code points.  Operations that can raise return a
    [result]. *)

From Stdlib Require Import ZArith QArith Qabs Qpower Qfield Lia List String Ascii Bool.
From Stdlib Require Import Floats Sorted Permutation.
Import ListNotations.

Set Warnings "-inexact-float".

Local Open Scope string_scope.
Local Open Scope list_scope.
Local Open Scope Z_scope.

(* ================================================================== *)
(** * Part 1: definitions *)
(* ================================================================== *)

(** ** The order of binary64 comparison

    [SFcompare] orders the numbers (everything but NaN) lexicographically on
    sign class, exponent and mantissa; [key] exposes that order as a triple of
    integers, on which [lia] decides every order argument needed below. *)

Module FloatOrder.

Definition key (x : spec_float) : Z * Z * Z :=
  match x with
  | S754_nan => (0, 0, 0)
  | S754_zero _ => (0, 0, 0)
  | S754_infinity s => (if s then -2 else 2, 0, 0)
  | S754_finite s m e => if s then (-1, - e, Z.neg m) else (1, e, Z.pos m)
  end.

Definition is_number (x : spec_float) : bool :=
  match x with
  | S754_nan => false
  | _ => true
  end.

Definition lt3 (a b : Z * Z * Z) : Prop :=
  let '(a1, a2, a3) := a in
  let '(b1, b2, b3) := b in
  a1 < b1 \/ (a1 = b1 /\ (a2 < b2 \/ (a2 = b2 /\ a3 < b3))).

Definition eq3 (a b : Z * Z * Z) : Prop :=
  let '(a1, a2, a3) := a in
  let '(b1, b2, b3) := b in
  a1 = b1 /\ a2 = b2 /\ a3 = b3.

Definition le3 (a b : Z * Z * Z) : Prop := lt3 a b \/ eq3 a b.

Definition fkey (x : float) : Z * Z * Z := key (Prim2SF x).

(** A float that is not NaN ([x == x] in Python). *)
Definition number (x : float) : Prop := is_number (Prim2SF x) = true.

(** The exact rational value of a float (0 for NaN and the infinities, which
    no statement below evaluates it on). *)
Definition F2Q (x : float) : Q :=
  match Prim2SF x with
  | S754_finite s m e =>
      (inject_Z (if s then Z.neg m else Z.pos m) * Qpower (2 # 1) e)%Q
  | _ => 0%Q
  end.

Definition is_finite (x : float) : bool :=
  match Prim2SF x with
  | S754_finite _ _ _ | S754_zero _ => true
  | _ => false
  end.

(** Order arguments on keys: name the keys, split them, call [lia]. *)
Ltac key_lia :=
  unfold fkey in *;
  repeat match goal with
         | H : context [key ?x] |- _ => generalize dependent (key x); intros
         | |- context [key ?x] => generalize dependent (key x); intros
         end;
  unfold le3, eq3, lt3 in *;
  repeat match goal with
         | p : (Z * Z * Z)%type |- _ => destruct p as [[? ?] ?]
         end;
  lia.

End FloatOrder.

(** ** The Python runtime the program relies on *)

Module Py.

Inductive exn : Type :=
| ZeroDivisionError
| OverflowError
| ValueError.

Inductive result (A : Type) : Type :=
| Ok (a : A)
| Raise (e : exn).

Arguments Ok {A} a.
Arguments Raise {A} e.

Definition bind {A B : Type} (r : result A) (k : A -> result B) : result B :=
  match r with
  | Ok a => k a
  | Raise e => Raise e
  end.

(** An [int] as an exact (unrounded) [spec_float]. *)
Definition Z2SF (z : Z) : spec_float :=
  match z with
  | Z0 => S754_zero false
  | Zpos p => S754_finite false p 0
  | Zneg p => S754_finite true p 0
  end.

(** [float(z)]: the nearest binary64 (ties to even); [OverflowError] when
    that is out of range. *)
Definition float_of_int (z : Z) : result float :=
  let f := SF2Prim (binary_normalize prec emax z 0 false) in
  if is_infinity f then Raise OverflowError else Ok f.

(** [a / b] on two [int]s: the correctly rounded quotient. *)
Definition int_truediv (a b : Z) : result float :=
  if b =? 0 then Raise ZeroDivisionError
  else
    let q := SF2Prim (SFdiv prec emax (Z2SF a) (Z2SF b)) in
    if is_infinity q then Raise OverflowError else Ok q.

(** [x / y] on two [float]s. *)
Definition float_truediv (x y : float) : result float :=
  if (y =? 0)%float then Raise ZeroDivisionError else Ok (x / y)%float.

(** [s in l] for a list of strings. *)
Definition in_list (s : string) (l : list string) : bool :=
  existsb (String.eqb s) l.

(** [needle in hay] for two strings: [needle] occurs at some position. *)
Fixpoint str_contains (needle hay : string) : bool :=
  if String.prefix needle hay then true
  else
    match hay with
    | EmptyString => false
    | String _ rest => str_contains needle rest
    end.

Section Libm.

(** The C library's [pow], to which [float.__pow__] delegates; its rounding
    is the platform's, so it stays a parameter. *)
Variable libm_pow : float -> float -> float.

(** [x ** 2]: the [int] exponent is converted and the value is
    [pow(x, 2.0)]; a finite [x] whose result is infinite raises
    [OverflowError]. *)
Definition float_pow2 (x : float) : result float :=
  let r := libm_pow x 2%float in
  if is_infinity r && negb (is_infinity x) then Raise OverflowError
  else Ok r.

End Libm.

(** A [pow] that rounds correctly at exponent 2: the square, rounded once. *)
Definition pow_correctly_rounded (x y : float) : float := (x * x)%float.

(** What the theorems below assume of [pow] at exponent 2: an error below
    one unit in the last place, that is, the correctly rounded square or one
    of its two neighbours. *)
Definition pow_faithful (libm_pow : float -> float -> float) : Prop :=
  forall x : float,
    In (libm_pow x 2%float)
       [(x * x)%float; next_up (x * x)%float; next_down (x * x)%float].

End Py.

Import Py.

Notation "x <- r ;; k" := (bind r (fun x => k))
  (at level 61, r at next level, right associativity).

(** ** Helpers of app.py *)

Module App.

(** A cell of a data frame: the program stores [str], [int] and [float]. *)
Inductive cell : Type :=
| c_str (s : string)
| c_int (n : Z)
| c_float (x : float).

(** A [pandas.DataFrame]: column names, row labels and the rows. *)
Record DataFrame : Type := mkDataFrame {
  columns : list string;
  index : list nat;
  values : list (list cell)
}.

(** [pd.DataFrame(data, columns=cols)] on a list of rows: every row must
    have as many cells as there are column names ([ValueError] otherwise);
    the rows are labelled 0, 1, ... *)
Definition pd_DataFrame (data : list (list cell)) (cols : list string)
  : result DataFrame :=
  if forallb (fun r => Nat.eqb (List.length r) (List.length cols)) data
  then Ok (mkDataFrame cols (seq 0 (List.length data)) data)
  else Raise ValueError.

(** [build_row]: [feature_cols] is the module-level list loaded from
    feature_columns.pkl. *)
Definition build_row (feature_cols : list string)
    (gender : string) (age family favc : Z) (fcvc ncp : float)
    (caec : string) (smoke : Z) (ch2o : float) (scc : Z) (faf tue : float)
    (calc mtrans : string) : result DataFrame :=
  let row := [c_str gender; c_int age; c_int family; c_int favc;
              c_float fcvc; c_float ncp; c_str caec; c_int smoke;
              c_float ch2o; c_int scc; c_float faf; c_float tue;
              c_str calc; c_str mtrans] in
  pd_DataFrame [row] feature_cols.

Definition interpret_label (label : string) : string :=
  if str_contains "Obesity" label then "High risk"
  else if str_contains "Overweight" label then "Moderate risk"
  else if str_contains "Normal" label then "Healthy range"
  else "Monitor".

Definition reason_family : string :=
  "Family history increases baseline risk.".
Definition reason_faf : string :=
  "Low physical activity (FAF) is linked with higher obesity levels.".
Definition reason_tue : string :=
  "Higher screen time (TUE) suggests a more sedentary lifestyle.".
Definition reason_caec : string :=
  "Frequent snacking between meals (CAEC) is associated with higher weight categories.".
Definition reason_fcvc : string :=
  "Lower vegetable intake (FCVC) reduces a protective dietary factor.".
Definition reason_ch2o : string :=
  "Lower water intake (CH2O) often correlates with less healthy routines.".
Definition reason_favc : string :=
  "Frequent high-calorie food (FAVC) can increase risk when combined with low activity.".
Definition reason_calc : string :=
  "Higher alcohol consumption (CALC) is associated with increased overweight risk in the data.".

(** [reasons.append(s)] when [c] holds: the list is threaded through the
    eight [if] statements. *)
Definition append_if (c : bool) (s : string) (reasons : list string)
  : list string :=
  if c then reasons ++ [s] else reasons.

Definition pick_reasons (family : Z) (faf tue : float) (caec : string)
    (fcvc ch2o : float) (favc : Z) (calc : string) : list string :=
  let reasons := [] in
  let reasons := append_if (family =? 1) reason_family reasons in
  let reasons := append_if (faf <=? 0.7)%float reason_faf reasons in
  let reasons := append_if (1.2 <=? tue)%float reason_tue reasons in
  let reasons :=
    append_if (in_list caec ["Frequently"; "Always"]) reason_caec reasons in
  let reasons := append_if (fcvc <=? 2.0)%float reason_fcvc reasons in
  let reasons := append_if (ch2o <=? 1.7)%float reason_ch2o reasons in
  let reasons := append_if (favc =? 1) reason_favc reasons in
  let reasons :=
    append_if (in_list calc ["Frequently"; "Always"]) reason_calc reasons in
  firstn 4 reasons.

(** ** Tab 1: the probability table *)

(** A row of [prob_df]: its label in the index and its two columns. *)
Record prob_row : Type := mkProbRow {
  row_label : nat;
  Category : string;
  Probability : float
}.

Fixpoint label_rows (start : nat) (classes : list string)
    (proba : list float) : list prob_row :=
  match classes, proba with
  | c :: classes', p :: proba' =>
      mkProbRow start c p :: label_rows (S start) classes' proba'
  | _, _ => []
  end.

(** [pd.DataFrame({"Category": classes, "Probability": proba})]: the two
    arrays must have the same length. *)
Definition prob_frame (classes : list string) (proba : list float)
  : result (list prob_row) :=
  if Nat.eqb (List.length classes) (List.length proba)
  then Ok (label_rows 0 classes proba)
  else Raise ValueError.

(** Insertion before the first row whose key is not larger. *)
Fixpoint insert_desc (r : prob_row) (l : list prob_row) : list prob_row :=
  match l with
  | [] => [r]
  | r' :: l' =>
      if (Probability r' <=? Probability r)%float then r :: l
      else r' :: insert_desc r l'
  end.

(** [df.sort_values("Probability", ascending=False)]: largest key first,
    NaN keys last, rows keep their labels.  Rows with equal keys are kept
    in their original order; no statement below depends on that order. *)
Definition sort_values_desc (rows : list prob_row) : list prob_row :=
  let numbers := filter (fun r => negb (is_nan (Probability r))) rows in
  let nans := filter (fun r => is_nan (Probability r)) rows in
  fold_right insert_desc [] numbers ++ nans.

(** [df.reset_index(drop=True)]: the rows are relabelled 0, 1, ... *)
Fixpoint relabel (start : nat) (rows : list prob_row) : list prob_row :=
  match rows with
  | [] => []
  | r :: rows' =>
      mkProbRow start (Category r) (Probability r) :: relabel (S start) rows'
  end.

Definition reset_index (rows : list prob_row) : list prob_row :=
  relabel 0 rows.

(** [df.head(n)]. *)
Definition head (n : nat) (rows : list prob_row) : list prob_row :=
  firstn n rows.

(** Lines 148-149: [classes] is [model.classes_], [proba] the vector
    [model.predict_proba(data)[0]]. *)
Definition prob_df (classes : list string) (proba : list float)
  : result (list prob_row) :=
  df <- prob_frame classes proba ;;
  Ok (reset_index (sort_values_desc df)).

(** Line 152: the table under "Top 3 probabilities". *)
Definition top3 (classes : list string) (proba : list float)
  : result (list prob_row) :=
  df <- prob_df classes proba ;;
  Ok (head 3 df).

(** ** Tab 2: the BMI check *)

(** What the handler writes to the page. *)
Inductive element : Type :=
| st_subheader (text : string) (value : float)
| st_info (text : string)
| st_success (text : string)
| st_warning (text : string)
| st_error (text : string)
| st_caption (text : string).

Definition comment_underweight : string :=
  "You're lighter than a feather 🪶 — maybe grab a sandwich and a smoothie!".
Definition comment_healthy : string :=
  "Perfectly shaped 😎✨ — your body called, it says 'keep it up!'".
Definition comment_overweight : string :=
  "You're in the 'extra cuddle mode' zone 🧸 — a bit more movement could help!".
Definition comment_high : string :=
  "You're in 'boss-level mass' mode 🦍 — consider healthier habits (and maybe fewer midnight snacks).".
Definition bmi_caption : string :=
  "BMI is a simple metric and doesn’t reflect muscle mass, body composition, or overall health.".

(** Lines 185-192.  The literals 18.5, 25 and 30 are binary64 values, so
    comparing with the [int]s 25 and 30 is comparing with the floats. *)
Definition bmi_comment (bmi : float) : element :=
  if (bmi <? 18.5)%float then st_info comment_underweight
  else if (bmi <? 25)%float then st_success comment_healthy
  else if (bmi <? 30)%float then st_warning comment_overweight
  else st_error comment_high.

(** Lines 174 and 176: the bounds of the two [st.number_input] widgets,
    whose values are [int]s (integer bounds, value and step). *)
Definition height_cm_min : Z := 120.
Definition height_cm_max : Z := 230.
Definition weight_kg_min : Z := 35.
Definition weight_kg_max : Z := 200.

Section Tab2.

Variable libm_pow : float -> float -> float.

(** Lines 179-180. *)
Definition compute_bmi (height_cm weight_kg : Z) : result float :=
  height_m <- int_truediv height_cm 100 ;;
  square <- float_pow2 libm_pow height_m ;;
  weight <- float_of_int weight_kg ;;
  float_truediv weight square.

(** The handler of "Check my BMI"; the subheader shows the value after the
    text (its one-decimal formatting is not modelled). *)
Definition check_my_bmi (height_cm weight_kg : Z) : result (list element) :=
  bmi <- compute_bmi height_cm weight_kg ;;
  Ok [st_subheader "Your BMI: " bmi; bmi_comment bmi; st_caption bmi_caption].

End Tab2.

End App.

Import App.

(** ** The specification's vocabulary *)

Module Spec.

(** The four BMI bands, in increasing order. *)
Inductive band : Type :=
| Underweight
| Healthy
| Overweight
| High.

Definition band_rank (k : band) : nat :=
  match k with
  | Underweight => 0
  | Healthy => 1
  | Overweight => 2
  | High => 3
  end.

(** The band's interval: below 18.5, [18.5, 25), [25, 30), 30 and above. *)
Definition in_band (k : band) (bmi : float) : bool :=
  match k with
  | Underweight => (bmi <? 18.5)%float
  | Healthy => (18.5 <=? bmi)%float && (bmi <? 25)%float
  | Overweight => (25 <=? bmi)%float && (bmi <? 30)%float
  | High => (30 <=? bmi)%float
  end.

(** The comment the page shows for a band. *)
Definition band_comment (k : band) : element :=
  match k with
  | Underweight => st_info comment_underweight
  | Healthy => st_success comment_healthy
  | Overweight => st_warning comment_overweight
  | High => st_error comment_high
  end.

(** "A label containing [needle]": the needle occurs somewhere in it. *)
Definition Contains (needle label : string) : Prop :=
  exists pre post : string,
    label = String.append pre (String.append needle post).

(** The eight rules of the reason selection, in declaration order: the
    trigger condition and the canned text. *)
Definition reason_rules (family : Z) (faf tue : float) (caec : string)
    (fcvc ch2o : float) (favc : Z) (calc : string) : list (bool * string) :=
  [ (family =? 1, reason_family);
    ((faf <=? 0.7)%float, reason_faf);
    ((1.2 <=? tue)%float, reason_tue);
    (String.eqb caec "Frequently" || String.eqb caec "Always", reason_caec);
    ((fcvc <=? 2.0)%float, reason_fcvc);
    ((ch2o <=? 1.7)%float, reason_ch2o);
    (favc =? 1, reason_favc);
    (String.eqb calc "Frequently" || String.eqb calc "Always", reason_calc) ].

(** The texts of the rules whose condition holds, in order. *)
Definition triggered (rules : list (bool * string)) : list string :=
  map snd (filter fst rules).

(** The (class, probability) pairs of a table, row labels forgotten. *)
Definition pairs (rows : list prob_row) : list (string * float) :=
  map (fun r => (Category r, Probability r)) rows.

(** Of two rows, the later one does not have the larger probability. *)
Definition desc (r1 r2 : prob_row) : Prop :=
  (Probability r2 <=? Probability r1)%float = true.

(** The probability table is in descending order: no probability is below
    a later one. *)
Definition descending (probabilities : list float) : Prop :=
  StronglySorted (fun p q => (q <=? p)%float = true) probabilities.

(** Two floats are the same value for Python: the same object, or equal
    under [==] (which identifies 0.0 and -0.0). *)
Definition same_float (x y : float) : Prop :=
  x = y \/ (x =? y)%float = true.

(** "Weight in kilograms divided by height in meters squared", the height
    in meters being the height in centimeters over 100, as a rational. *)
Definition bmi_exact (height_cm weight_kg : Z) : Q :=
  (inject_Z weight_kg / (inject_Z height_cm / 100) ^ 2)%Q.

End Spec.

Import Spec.

(** ** Checks over the widgets' ranges

    The height and weight widgets offer finitely many values; the facts
    below that depend on rounding are decided by running these checks on
    all of them. *)

Module RangeCheck.

Import FloatOrder.

Definition zrange (lo : Z) (n : nat) : list Z :=
  map (fun i => lo + Z.of_nat i) (seq 0 n).

Definition heights : list Z :=
  zrange height_cm_min (Z.to_nat (height_cm_max - height_cm_min + 1)).

Definition weights : list Z :=
  zrange weight_kg_min (Z.to_nat (weight_kg_max - weight_kg_min + 1)).

(** The values a faithful [pow] may return for the square of [m]. *)
Definition squares (m : float) : list float :=
  [(m * m)%float; next_up (m * m)%float; next_down (m * m)%float].

(** [height_cm / 100] is a positive float whose possible squares are
    positive and finite. *)
Definition height_safe (height_cm : Z) : bool :=
  match int_truediv height_cm 100 with
  | Ok m =>
      (0 <? m)%float
      && forallb (fun s => (0 <? s)%float && negb (is_infinity s)) (squares m)
  | Raise _ => false
  end.

(** [float(weight_kg)] is the weight itself. *)
Definition weight_exact (weight_kg : Z) : bool :=
  match float_of_int weight_kg with
  | Ok weight => Qeq_bool (F2Q weight) (inject_Z weight_kg)
  | Raise _ => false
  end.

(** The quotient of the weight by the square [s] is a positive float
    M * 2^e within 2^-50, relatively, of the exact BMI
    10000 * weight_kg / height_cm^2; the comparison is made on integers,
    both sides multiplied by height_cm^2 * 2^-e. *)
Definition bmi_close (height_cm weight_kg : Z) (s : float) : bool :=
  match float_of_int weight_kg with
  | Ok weight =>
      match Prim2SF (weight / s)%float with
      | S754_finite false M e =>
          (e <=? 0)
          && (Z.abs (Z.pos M * (height_cm * height_cm)
                     - 10000 * weight_kg * 2 ^ (- e)) * 2 ^ 50
              <=? 10000 * weight_kg * 2 ^ (- e))
      | _ => false
      end
  | Raise _ => false
  end.

(** [height_cm / 100] is within 2^-53, relatively, of the exact height in
    meters, and every weight over every possible square is close. *)
Definition height_close (height_cm : Z) : bool :=
  match int_truediv height_cm 100 with
  | Ok m =>
      Qle_bool (Qabs (F2Q m - inject_Z height_cm / 100))
               (inject_Z height_cm / 100 * (1 # 2 ^ 53))
      && forallb (fun s => forallb (fun w => bmi_close height_cm w s) weights)
                 (squares m)
  | Raise _ => false
  end.

End RangeCheck.

(** ** Tab 1: what the "Predict" handler shows around the helpers *)

Module View.

(** Lines 140-146: the f-string of the banner. *)
Definition banner_text (pred_str risk_band : string) : string :=
  String.append "Predicted category: **"
    (String.append pred_str
       (String.append "**  |  Risk band: **"
          (String.append risk_band "**"))).

(** Lines 139-146: the kind of banner is chosen by comparing the risk band
    with three literals. *)
Definition risk_banner (pred_str risk_band : string) : element :=
  if String.eqb risk_band "High risk"
  then st_error (banner_text pred_str risk_band)
  else if String.eqb risk_band "Moderate risk"
  then st_warning (banner_text pred_str risk_band)
  else if String.eqb risk_band "Healthy range"
  then st_success (banner_text pred_str risk_band)
  else st_info (banner_text pred_str risk_band).

(** Lines 134-146 for a prediction that is a [str]: [str(pred)] and
    [pred_str] are then the prediction itself. *)
Definition show_prediction (pred : string) : element :=
  let risk_band := interpret_label pred in
  let pred_str := pred in
  risk_banner pred_str risk_band.

Definition no_signal_text : string :=
  "No strong rule-based risk signals detected from the selected inputs.".

(** Lines 159-163: the texts passed to [st.write], a bullet per reason, or
    the fallback sentence when the list is empty. *)
Definition why_this_result (reasons : list string) : list string :=
  match reasons with
  | [] => [no_signal_text]
  | _ :: _ => map (fun r => String.append "• " r) reasons
  end.

End View.

Import View.

(** ** More of the specification's vocabulary *)

Module Spec2.

(** How many of the rules before position [i] have their condition hold. *)
Definition earlier_triggered (i : nat) (rules : list (bool * string)) : nat :=
  List.length (filter fst (firstn i rules)).

(** The ASCII letters, of which the three keywords of [interpret_label]
    are made. *)
Definition is_letter (c : ascii) : bool :=
  let n := nat_of_ascii c in
  ((65 <=? n) && (n <=? 90) || (97 <=? n) && (n <=? 122))%nat.

Definition no_letters (s : string) : bool :=
  forallb (fun c => negb (is_letter c)) (list_ascii_of_string s).

Definition all_letters (s : string) : bool :=
  forallb is_letter (list_ascii_of_string s).

Fixpoint nodupb (l : list string) : bool :=
  match l with
  | [] => true
  | x :: l' => negb (in_list x l') && nodupb l'
  end.

End Spec2.

Import Spec2.

(** ** The sidebar: session state, "Reset to demo values", the widgets *)

Module Sidebar.

(** The values the program stores in [st.session_state]. *)
Inductive value : Type :=
| v_int (n : Z)
| v_float (x : float)
| v_str (s : string).

(** [st.session_state], as a map from keys to values. *)
Definition session_state : Type := string -> option value.

(** [st.session_state[key] = v]. *)
Definition set_item (key : string) (v : value) (st : session_state)
  : session_state :=
  fun k => if String.eqb k key then Some v else st k.

(** Lines 79-92: the fourteen assignments of the reset button. *)
Definition reset_to_demo (st : session_state) : session_state :=
  let st := set_item "age" (v_int 25) st in
  let st := set_item "gender" (v_str "Female") st in
  let st := set_item "family" (v_int 1) st in
  let st := set_item "favc" (v_int 1) st in
  let st := set_item "fcvc" (v_float 2.0) st in
  let st := set_item "ncp" (v_float 3.0) st in
  let st := set_item "caec" (v_str "Sometimes") st in
  let st := set_item "smoke" (v_int 0) st in
  let st := set_item "ch2o" (v_float 2.0) st in
  let st := set_item "scc" (v_int 0) st in
  let st := set_item "faf" (v_float 1.0) st in
  let st := set_item "tue" (v_float 1.0) st in
  let st := set_item "calc" (v_str "Sometimes") st in
  let st := set_item "mtrans" (v_str "Public_Transportation") st in
  st.

(** A sidebar widget: a select box with its options, or a slider with its
    bounds (and step, for a float slider). *)
Inductive widget : Type :=
| selectbox (options : list value)
| slider_int (min_value max_value : Z)
| slider_float (min_value max_value step : float).

(** Lines 94-118: the widgets, by key, in source order. *)
Definition sidebar_widgets : list (string * widget) :=
  [ ("gender", selectbox [v_str "Male"; v_str "Female"]);
    ("age", slider_int 14 61);
    ("family", selectbox [v_int 0; v_int 1]);
    ("favc", selectbox [v_int 0; v_int 1]);
    ("fcvc", slider_float 1.0 3.0 0.1);
    ("ncp", slider_float 1.0 4.0 0.1);
    ("caec", selectbox [v_str "no"; v_str "Sometimes"; v_str "Frequently";
                        v_str "Always"]);
    ("smoke", selectbox [v_int 0; v_int 1]);
    ("ch2o", slider_float 1.0 3.0 0.1);
    ("scc", selectbox [v_int 0; v_int 1]);
    ("faf", slider_float 0.0 3.0 0.1);
    ("tue", slider_float 0.0 2.0 0.1);
    ("calc", selectbox [v_str "no"; v_str "Sometimes"; v_str "Frequently";
                        v_str "Always"]);
    ("mtrans", selectbox [v_str "Walking"; v_str "Bike"; v_str "Motorbike";
                          v_str "Public_Transportation";
                          v_str "Automobile"]) ].

Definition value_eqb (a b : value) : bool :=
  match a, b with
  | v_int x, v_int y => x =? y
  | v_float x, v_float y => (x =? y)%float
  | v_str x, v_str y => String.eqb x y
  | _, _ => false
  end.

(** The value is one of the options, or lies within the slider's bounds
    and has the slider's type. *)
Definition admits (w : widget) (v : value) : bool :=
  match w, v with
  | selectbox options, _ => existsb (value_eqb v) options
  | slider_int lo hi, v_int n => (lo <=? n) && (n <=? hi)
  | slider_float lo hi _, v_float x => ((lo <=? x) && (x <=? hi))%float
  | _, _ => false
  end.

Definition widget_keys : list string := map fst sidebar_widgets.

End Sidebar.

Import Sidebar.

(** ** More checks over the widgets' ranges *)

Module RangeCheck2.

Import RangeCheck.

(** The band the cascade picks, as a band. *)
Definition band_of_float (bmi : float) : band :=
  if (bmi <? 18.5)%float then Underweight
  else if (bmi <? 25)%float then Healthy
  else if (bmi <? 30)%float then Overweight
  else High.

(** The band of the exact BMI, a rational. *)
Definition exact_band (height_cm weight_kg : Z) : band :=
  let e := bmi_exact height_cm weight_kg in
  if Qle_bool 30 e then High
  else if Qle_bool 25 e then Overweight
  else if Qle_bool (37 # 2) e then Healthy
  else Underweight.

(** The exact BMI is one of the thresholds 18.5, 25 and 30. *)
Definition on_threshold (height_cm weight_kg : Z) : bool :=
  let e := bmi_exact height_cm weight_kg in
  Qeq_bool e (37 # 2) || Qeq_bool e 25 || Qeq_bool e 30.

Definition band_eqb (a b : band) : bool :=
  Nat.eqb (band_rank a) (band_rank b).

(** The weights with their floats, converted once. *)
Definition weight_floats : list (Z * result float) :=
  map (fun w => (w, float_of_int w)) weights.

(** Each weight with the next one. *)
Definition weight_steps : list ((Z * result float) * (Z * result float)) :=
  combine weight_floats (tl weight_floats).

Definition band_agrees (height_cm : Z) (s : float)
    (wf : Z * result float) : bool :=
  match snd wf with
  | Ok weight =>
      on_threshold height_cm (fst wf)
      || band_eqb (band_of_float (weight / s)%float)
                  (exact_band height_cm (fst wf))
  | Raise _ => false
  end.

Definition height_bands_agree (height_cm : Z) : bool :=
  match int_truediv height_cm 100 with
  | Ok m => forallb (fun s => forallb (band_agrees height_cm s) weight_floats)
                    (squares m)
  | Raise _ => false
  end.

(** The quotient for a weight is not above the one for the next weight. *)
Definition step_ascends (s : float)
    (step : (Z * result float) * (Z * result float)) : bool :=
  match snd (fst step), snd (snd step) with
  | Ok x, Ok y => (x / s <=? y / s)%float
  | _, _ => false
  end.

Definition height_steps_ascend (height_cm : Z) : bool :=
  match int_truediv height_cm 100 with
  | Ok m => forallb (fun s => forallb (step_ascends s) weight_steps)
                    (squares m)
  | Raise _ => false
  end.

End RangeCheck2.

(* ================================================================== *)
(** * Part 2: properties *)
(* ================================================================== *)

(** ** Binary64 comparison is a total preorder on the numbers *)

Module FloatFacts.

Import FloatOrder.

Lemma SFcompare_key (x y : spec_float) :
  is_number x = true -> is_number y = true ->
  match SFcompare x y with
  | Some Lt => lt3 (key x) (key y)
  | Some Eq => eq3 (key x) (key y)
  | Some Gt => lt3 (key y) (key x)
  | None => False
  end.
Proof.
  destruct x as [sx|sx| |sx mx ex], y as [sy|sy| |sy my ey];
    try discriminate; intros _ _;
    try destruct sx; try destruct sy; cbn; try lia.
  - change (PosDef.Pos.compare_cont Eq mx my) with (Pos.compare mx my).
    destruct (Z.compare_spec ex ey); try lia.
    destruct (Pos.compare_spec mx my); cbn; subst; lia.
  - change (PosDef.Pos.compare_cont Eq mx my) with (Pos.compare mx my).
    destruct (Z.compare_spec ex ey); try lia.
    destruct (Pos.compare_spec mx my); cbn; subst; lia.
Qed.

Lemma SFcompare_nan (x y : spec_float) :
  is_number x && is_number y = false -> SFcompare x y = None.
Proof.
  destruct x, y; cbn; intros H; try discriminate H; reflexivity.
Qed.

(** The three comparisons, read on the keys. *)
Lemma ltb_iff (x y : float) :
  (x <? y)%float = true <-> number x /\ number y /\ lt3 (fkey x) (fkey y).
Proof.
  rewrite ltb_spec. unfold SFltb, number, fkey.
  destruct (is_number (Prim2SF x)) eqn:Hx, (is_number (Prim2SF y)) eqn:Hy;
    try (rewrite SFcompare_nan by (rewrite Hx, Hy; reflexivity);
         split; [discriminate | intros (? & ? & _); discriminate]).
  pose proof (SFcompare_key _ _ Hx Hy) as K.
  destruct (SFcompare (Prim2SF x) (Prim2SF y)) as [[ | | ]|];
    try contradiction;
    (split; [ first [ discriminate | intros _; repeat split; assumption ]
            | intros (_ & _ & L); try reflexivity; exfalso; key_lia ]).
Qed.

Lemma leb_iff (x y : float) :
  (x <=? y)%float = true <-> number x /\ number y /\ le3 (fkey x) (fkey y).
Proof.
  rewrite leb_spec. unfold SFleb, number, fkey.
  destruct (is_number (Prim2SF x)) eqn:Hx, (is_number (Prim2SF y)) eqn:Hy;
    try (rewrite SFcompare_nan by (rewrite Hx, Hy; reflexivity);
         split; [discriminate | intros (? & ? & _); discriminate]).
  pose proof (SFcompare_key _ _ Hx Hy) as K.
  destruct (SFcompare (Prim2SF x) (Prim2SF y)) as [[ | | ]|];
    try contradiction;
    (split; [ first [ discriminate
                    | intros _; repeat split; unfold le3; tauto ]
            | intros (_ & _ & L); try reflexivity; exfalso; key_lia ]).
Qed.

Lemma eqb_iff (x y : float) :
  (x =? y)%float = true <-> number x /\ number y /\ eq3 (fkey x) (fkey y).
Proof.
  rewrite eqb_spec. unfold SFeqb, number, fkey.
  destruct (is_number (Prim2SF x)) eqn:Hx, (is_number (Prim2SF y)) eqn:Hy;
    try (rewrite SFcompare_nan by (rewrite Hx, Hy; reflexivity);
         split; [discriminate | intros (? & ? & _); discriminate]).
  pose proof (SFcompare_key _ _ Hx Hy) as K.
  destruct (SFcompare (Prim2SF x) (Prim2SF y)) as [[ | | ]|];
    try contradiction;
    (split; [ first [ discriminate | intros _; repeat split; assumption ]
            | intros (_ & _ & L); try reflexivity; exfalso; key_lia ]).
Qed.

Lemma leb_ltb_false (c x : float) :
  (c <=? x)%float = true -> (x <? c)%float = false.
Proof.
  intros H. apply leb_iff in H. destruct H as (_ & _ & H).
  destruct (x <? c)%float eqn:E; [ | reflexivity ].
  apply ltb_iff in E. destruct E as (_ & _ & E). exfalso. key_lia.
Qed.

Lemma leb_ltb_trans (x y c : float) :
  (x <=? y)%float = true -> (y <? c)%float = true -> (x <? c)%float = true.
Proof.
  intros H1 H2. apply leb_iff in H1. apply ltb_iff in H2.
  destruct H1 as (Nx & _ & H1), H2 as (_ & Nc & H2).
  apply ltb_iff. repeat split; try assumption. key_lia.
Qed.

Lemma leb_trans (x y z : float) :
  (x <=? y)%float = true -> (y <=? z)%float = true -> (x <=? z)%float = true.
Proof.
  intros H1 H2. apply leb_iff in H1. apply leb_iff in H2.
  destruct H1 as (Nx & _ & H1), H2 as (_ & Nz & H2).
  apply leb_iff. repeat split; try assumption. key_lia.
Qed.

Lemma ltb_leb_weak (x y : float) :
  (x <? y)%float = true -> (x <=? y)%float = true.
Proof.
  intros H. apply ltb_iff in H. destruct H as (Nx & Ny & H).
  apply leb_iff. repeat split; try assumption. key_lia.
Qed.

Lemma ltb_false_leb (x c : float) :
  number x -> number c -> (x <? c)%float = false -> (c <=? x)%float = true.
Proof.
  intros Nx Nc H. apply leb_iff. repeat split; try assumption.
  assert (L : ~ lt3 (fkey x) (fkey c)).
  { intros L. rewrite (proj2 (ltb_iff x c)) in H by auto. discriminate. }
  key_lia.
Qed.

Lemma leb_total (x y : float) :
  number x -> number y -> (x <=? y)%float = false -> (y <=? x)%float = true.
Proof.
  intros Nx Ny H. apply leb_iff. repeat split; try assumption.
  assert (L : ~ le3 (fkey x) (fkey y)).
  { intros L. rewrite (proj2 (leb_iff x y)) in H by auto. discriminate. }
  key_lia.
Qed.

Lemma leb_number (x y : float) :
  (x <=? y)%float = true -> number x /\ number y.
Proof. intros H. apply leb_iff in H. tauto. Qed.

(** Python's [==] on floats identifies what every comparison identifies. *)
Lemma eqb_leb_l (x y c : float) :
  (x =? y)%float = true -> (x <=? c)%float = (y <=? c)%float.
Proof.
  intros H. apply eqb_iff in H. destruct H as (Nx & Ny & H).
  apply eq_true_iff_eq. rewrite !leb_iff.
  split; intros (_ & Nc & L); repeat split; try assumption; key_lia.
Qed.

Lemma eqb_leb_r (x y c : float) :
  (x =? y)%float = true -> (c <=? x)%float = (c <=? y)%float.
Proof.
  intros H. apply eqb_iff in H. destruct H as (Nx & Ny & H).
  apply eq_true_iff_eq. rewrite !leb_iff.
  split; intros (Nc & _ & L); repeat split; try assumption; key_lia.
Qed.

Lemma is_nan_number (x : float) : is_nan x = false <-> number x.
Proof.
  unfold is_nan. rewrite negb_false_iff, eqb_iff. unfold number.
  split; [ tauto | ]. intros H. repeat split; try assumption; key_lia.
Qed.

End FloatFacts.

(** ** Tab 2: the BMI bands *)

Module BmiBands.

Import FloatOrder FloatFacts.

Lemma threshold_number (c : float) :
  In c [18.5; 25; 30]%float -> number c.
Proof.
  cbn. intros [<- | [<- | [<- | []]]]; vm_compute; reflexivity.
Qed.

Lemma leb_negb_ltb (x c : float) :
  number x -> number c -> (c <=? x)%float = negb (x <? c)%float.
Proof.
  intros Nx Nc. destruct (x <? c)%float eqn:E; cbn.
  - destruct (c <=? x)%float eqn:E'; [ | reflexivity ].
    apply leb_ltb_false in E'. congruence.
  - apply ltb_false_leb; assumption.
Qed.

Lemma ltb_leb_trans (x c d : float) :
  (x <? c)%float = true -> (c <=? d)%float = true -> (x <? d)%float = true.
Proof.
  intros H1 H2. apply ltb_iff in H1. apply leb_iff in H2.
  destruct H1 as (Nx & _ & H1), H2 as (_ & Nd & H2).
  apply ltb_iff. repeat split; try assumption. key_lia.
Qed.

(** The three tests of the cascade are nested: below 18.5 is below 25 is
    below 30. *)
Lemma below_nested (bmi : float) :
  ((bmi <? 18.5)%float = true -> (bmi <? 25)%float = true) /\
  ((bmi <? 25)%float = true -> (bmi <? 30)%float = true).
Proof.
  split; intros H; eapply ltb_leb_trans; try exact H; vm_compute; reflexivity.
Qed.

(** C1: the BMI handler shows, for the value bmi it computed from the
    weight and the height, the underweight comment when bmi < 18.5, the
    healthy comment when 18.5 <= bmi < 25, the overweight comment when
    25 <= bmi < 30, and the high comment when bmi >= 30. *)
Theorem bmi_banding_matches_spec
    (libm_pow : float -> float -> float) (height_cm weight_kg : Z)
    (bmi : float) :
  compute_bmi libm_pow height_cm weight_kg = Ok bmi ->
  check_my_bmi libm_pow height_cm weight_kg
    = Ok [st_subheader "Your BMI: " bmi; bmi_comment bmi;
          st_caption bmi_caption] /\
  ((bmi <? 18.5)%float = true ->
     bmi_comment bmi = st_info comment_underweight) /\
  ((18.5 <=? bmi)%float = true -> (bmi <? 25)%float = true ->
     bmi_comment bmi = st_success comment_healthy) /\
  ((25 <=? bmi)%float = true -> (bmi <? 30)%float = true ->
     bmi_comment bmi = st_warning comment_overweight) /\
  ((30 <=? bmi)%float = true ->
     bmi_comment bmi = st_error comment_high).
Proof.
  intros Hbmi.
  split; [ unfold check_my_bmi; rewrite Hbmi; reflexivity | ].
  unfold bmi_comment. repeat split.
  - intros ->. reflexivity.
  - intros L ->. apply leb_ltb_false in L. rewrite L. reflexivity.
  - intros L ->. apply leb_ltb_false in L.
    destruct (bmi <? 18.5)%float eqn:E1;
      [ apply (proj1 (below_nested bmi)) in E1; congruence | ].
    rewrite L. reflexivity.
  - intros L. apply leb_ltb_false in L.
    destruct (bmi <? 25)%float eqn:E2;
      [ apply (proj2 (below_nested bmi)) in E2; congruence | ].
    destruct (bmi <? 18.5)%float eqn:E1;
      [ apply (proj1 (below_nested bmi)) in E1; congruence | ].
    rewrite L. reflexivity.
Qed.

Lemma bmi_banding_witness :
  compute_bmi pow_correctly_rounded 170 70 = Ok (70 / (1.7 * 1.7))%float /\
  bmi_comment (70 / (1.7 * 1.7))%float = st_success comment_healthy.
Proof.
  assert (H : compute_bmi pow_correctly_rounded 170 70
              = Ok (70 / (1.7 * 1.7))%float) by (vm_compute; reflexivity).
  split; [ exact H | ].
  destruct (bmi_banding_matches_spec pow_correctly_rounded 170 70 _ H)
    as (_ & _ & Hhealthy & _).
  apply Hhealthy; vm_compute; reflexivity.
Defined.

(** For a number, the six comparisons of the cascade and of the intervals
    are those of its band's rank with 1, 2 and 3. *)
Lemma tests_of_number (bmi : float) :
  number bmi ->
  exists k : band,
    (bmi <? 18.5)%float = (band_rank k <? 1)%nat /\
    (bmi <? 25)%float = (band_rank k <? 2)%nat /\
    (bmi <? 30)%float = (band_rank k <? 3)%nat /\
    (18.5 <=? bmi)%float = (1 <=? band_rank k)%nat /\
    (25 <=? bmi)%float = (2 <=? band_rank k)%nat /\
    (30 <=? bmi)%float = (3 <=? band_rank k)%nat.
Proof.
  intros N.
  pose proof (leb_negb_ltb bmi 18.5 N
                (threshold_number _ ltac:(cbn; tauto))) as L1.
  pose proof (leb_negb_ltb bmi 25 N
                (threshold_number _ ltac:(cbn; tauto))) as L2.
  pose proof (leb_negb_ltb bmi 30 N
                (threshold_number _ ltac:(cbn; tauto))) as L3.
  destruct (below_nested bmi) as [N1 N2].
  rewrite L1, L2, L3.
  destruct (bmi <? 18.5)%float, (bmi <? 25)%float, (bmi <? 30)%float;
    try (specialize (N1 eq_refl); discriminate);
    try (specialize (N2 eq_refl); discriminate).
  - exists Underweight. cbn. tauto.
  - exists Healthy. cbn. tauto.
  - exists Overweight. cbn. tauto.
  - exists High. cbn. tauto.
Qed.

(** C4: the bands are exhaustive and monotonic.  For b1 <= b2 (two real
    values; taking b1 = b2 covers a single value) each value lies in exactly
    one band, which is the band whose comment is shown, and the band of b1
    is not above the band of b2 in the order underweight < healthy <
    overweight < high. *)
Theorem bmi_bands_exhaustive_monotonic (b1 b2 : float) :
  (b1 <=? b2)%float = true ->
  exists k1 k2 : band,
    bmi_comment b1 = band_comment k1 /\
    bmi_comment b2 = band_comment k2 /\
    (forall k : band, in_band k b1 = true <-> k = k1) /\
    (forall k : band, in_band k b2 = true <-> k = k2) /\
    (band_rank k1 <= band_rank k2)%nat.
Proof.
  intros L. destruct (leb_number _ _ L) as [Nb1 Nb2].
  destruct (tests_of_number b1 Nb1) as (k1 & A1 & A2 & A3 & A4 & A5 & A6).
  destruct (tests_of_number b2 Nb2) as (k2 & B1 & B2 & B3 & B4 & B5 & B6).
  exists k1, k2. unfold bmi_comment, in_band.
  rewrite A1, A2, A3, A4, A5, A6, B1, B2, B3, B4, B5, B6.
  repeat split.
  - destruct k1; reflexivity.
  - destruct k2; reflexivity.
  - destruct k, k1; cbn; congruence.
  - destruct k, k1; cbn; congruence.
  - destruct k, k2; cbn; congruence.
  - destruct k, k2; cbn; congruence.
  - (* a threshold above b2 is above b1 *)
    assert (M : forall c : float,
               (b2 <? c)%float = true -> (b1 <? c)%float = true)
      by (intros c; apply leb_ltb_trans; exact L).
    pose proof (M 18.5%float) as M1. pose proof (M 25%float) as M2.
    pose proof (M 30%float) as M3.
    rewrite A1, B1 in M1. rewrite A2, B2 in M2. rewrite A3, B3 in M3.
    destruct k1, k2; cbn in *; try lia;
      first [ specialize (M1 eq_refl) | specialize (M2 eq_refl)
            | specialize (M3 eq_refl) ]; discriminate.
Qed.

Lemma bmi_bands_witness :
  exists k1 k2 : band,
    bmi_comment 22 = band_comment k1 /\
    bmi_comment 27.5 = band_comment k2 /\
    (forall k : band, in_band k 22 = true <-> k = k1) /\
    (forall k : band, in_band k 27.5 = true <-> k = k2) /\
    (band_rank k1 <= band_rank k2)%nat.
Proof.
  apply (bmi_bands_exhaustive_monotonic 22 27.5). vm_compute. reflexivity.
Defined.

End BmiBands.

(** ** Tab 2: the BMI computation *)

Module BmiValue.

Import FloatOrder FloatFacts RangeCheck.

Lemma zrange_In (lo z : Z) (n : nat) :
  lo <= z < lo + Z.of_nat n -> In z (zrange lo n).
Proof.
  intros H. unfold zrange. apply in_map_iff.
  exists (Z.to_nat (z - lo)). split; [ lia | ].
  apply in_seq. lia.
Qed.

Lemma heights_In (h : Z) :
  height_cm_min <= h <= height_cm_max -> In h heights.
Proof.
  unfold heights, height_cm_min, height_cm_max. intros H.
  apply zrange_In. rewrite Z2Nat.id by lia. lia.
Qed.

Lemma weights_In (w : Z) :
  weight_kg_min <= w <= weight_kg_max -> In w weights.
Proof.
  unfold weights, weight_kg_min, weight_kg_max. intros H.
  apply zrange_In. rewrite Z2Nat.id by lia. lia.
Qed.

Lemma heights_safe : forallb height_safe heights = true.
Proof. vm_compute. reflexivity. Qed.

Lemma heights_close : forallb height_close heights = true.
Proof. vm_compute. reflexivity. Qed.

Lemma weights_exact : forallb weight_exact weights = true.
Proof. vm_compute. reflexivity. Qed.

Lemma Qpower2_nonpos (e : Z) :
  e <= 0 -> (Qpower (2 # 1) e == / inject_Z (2 ^ (- e)))%Q.
Proof.
  intros He. replace e with (- (- e)) at 1 by lia.
  rewrite Qpower_opp. rewrite Zpower_Qpower by lia. reflexivity.
Qed.

(** The integer comparison of [bmi_close] is the rational one. *)
Lemma close_sound (h w e : Z) (M : positive) :
  0 < h -> 0 < w -> e <= 0 ->
  Z.abs (Z.pos M * (h * h) - 10000 * w * 2 ^ (- e)) * 2 ^ 50
    <= 10000 * w * 2 ^ (- e) ->
  (Qabs (inject_Z (Z.pos M) * Qpower (2 # 1) e - bmi_exact h w)
     <= bmi_exact h w * (1 # 2 ^ 50))%Q.
Proof.
  intros Hh Hw He Hz.
  rewrite Qpower2_nonpos by assumption.
  set (P := 2 ^ (- e)) in *.
  assert (HP : 0 < P) by (apply Z.pow_pos_nonneg; lia).
  assert (QP : (0 < inject_Z P)%Q) by (unfold Qlt; cbn; lia).
  assert (QH : (0 < inject_Z h)%Q) by (unfold Qlt; cbn; lia).
  assert (Qc : (0 < inject_Z P * (inject_Z h * inject_Z h))%Q).
  { apply Qmult_lt_0_compat;
      [ assumption | apply Qmult_lt_0_compat; assumption ]. }
  apply (Qmult_le_r _ _ _ Qc).
  rewrite <- (Qabs_pos (inject_Z P * (inject_Z h * inject_Z h))) at 1
    by (apply Qlt_le_weak; assumption).
  rewrite <- Qabs_Qmult.
  unfold bmi_exact.
  assert (E1 : ((inject_Z (Z.pos M) * / inject_Z P
                 - inject_Z w / (inject_Z h / 100) ^ 2)
                * (inject_Z P * (inject_Z h * inject_Z h))
                == inject_Z (Z.pos M * (h * h) - 10000 * w * P))%Q).
  { unfold Z.sub. rewrite inject_Z_plus, inject_Z_opp, !inject_Z_mult.
    field. split; intros Z0; rewrite Z0 in *;
      apply (Qlt_irrefl 0); assumption. }
  rewrite E1.
  assert (E2 : (inject_Z w / (inject_Z h / 100) ^ 2 * (1 # 2 ^ 50)
                * (inject_Z P * (inject_Z h * inject_Z h))
                == inject_Z (10000 * w * P) * (1 # 2 ^ 50))%Q).
  { rewrite !inject_Z_mult. field.
    intros Z0; rewrite Z0 in *; apply (Qlt_irrefl 0); assumption. }
  rewrite E2.
  change (Qabs (inject_Z ?z)) with (inject_Z (Z.abs z)).
  unfold Qle. cbn [Qnum Qden inject_Z Qmult].
  rewrite Z.mul_1_r, Pos.mul_1_l.
  change (Z.pos (2 ^ 50)) with (2 ^ 50). lia.
Qed.

Lemma positive_nonzero (s : float) :
  (0 <? s)%float = true -> (s =? 0)%float = false.
Proof.
  intros H. apply ltb_iff in H. destruct H as (_ & _ & H).
  destruct (s =? 0)%float eqn:E; [ | reflexivity ].
  apply eqb_iff in E. destruct E as (_ & _ & E). exfalso. key_lia.
Qed.

(** What a faithful [pow] returns is one of the candidate squares. *)
Lemma faithful_square (libm_pow : float -> float -> float) (m : float) :
  pow_faithful libm_pow -> In (libm_pow m 2%float) (squares m).
Proof. intros H. apply H. Qed.

(** For a height within the widget's bounds: the height in meters is
    positive, [pow] returns a positive finite square, and dividing by it
    does not raise. *)
Lemma square_positive
    (libm_pow : float -> float -> float) (height_cm : Z) :
  pow_faithful libm_pow ->
  height_cm_min <= height_cm <= height_cm_max ->
  exists height_m : float,
    int_truediv height_cm 100 = Ok height_m /\
    (0 <? height_m)%float = true /\
    float_pow2 libm_pow height_m = Ok (libm_pow height_m 2%float) /\
    (0 <? libm_pow height_m 2%float)%float = true /\
    (forall x : float,
       float_truediv x (libm_pow height_m 2%float)
       = Ok (x / libm_pow height_m 2%float)%float).
Proof.
  intros Hpow Hh.
  pose proof (proj1 (forallb_forall _ _) heights_safe _ (heights_In _ Hh))
    as S.
  unfold height_safe in S.
  destruct (int_truediv height_cm 100) as [m | ]; [ | discriminate ].
  apply andb_true_iff in S. destruct S as [Pm S].
  pose proof (proj1 (forallb_forall _ _) S _ (faithful_square _ m Hpow))
    as Ps.
  apply andb_true_iff in Ps. destruct Ps as [Ps Fs].
  apply negb_true_iff in Fs.
  exists m. repeat split; try assumption.
  - unfold float_pow2. rewrite Fs. reflexivity.
  - intros x. unfold float_truediv.
    rewrite (positive_nonzero _ Ps). reflexivity.
Qed.

(** C9: for a height within the widget's bounds, height_m = height_cm / 100
    is strictly positive and so is its square, hence dividing the weight by
    it does not divide by zero, whatever the weight. *)
Theorem bmi_division_safe
    (libm_pow : float -> float -> float) (height_cm weight_kg : Z) :
  pow_faithful libm_pow ->
  height_cm_min <= height_cm <= height_cm_max ->
  exists height_m square : float,
    int_truediv height_cm 100 = Ok height_m /\
    (0 <? height_m)%float = true /\
    float_pow2 libm_pow height_m = Ok square /\
    (0 <? square)%float = true /\
    (forall weight : float,
       float_of_int weight_kg = Ok weight ->
       float_truediv weight square = Ok (weight / square)%float /\
       compute_bmi libm_pow height_cm weight_kg
       = Ok (weight / square)%float) /\
    compute_bmi libm_pow height_cm weight_kg <> Raise ZeroDivisionError.
Proof.
  intros Hpow Hh.
  destruct (square_positive libm_pow height_cm Hpow Hh)
    as (m & Hm & Pm & Hsq & Ps & Hdiv).
  exists m, (libm_pow m 2%float). unfold compute_bmi. rewrite Hm. cbn.
  rewrite Hsq. cbn.
  repeat split; try assumption; try apply Hdiv.
  - rewrite H. cbn. apply Hdiv.
  - destruct (float_of_int weight_kg) as [weight | e] eqn:Hw; cbn.
    + rewrite Hdiv. discriminate.
    + unfold float_of_int in Hw.
      destruct (is_infinity _) in Hw; [ | discriminate ].
      injection Hw as <-. discriminate.
Qed.

Lemma bmi_division_safe_witness :
  exists height_m square : float,
    int_truediv 170 100 = Ok height_m /\
    (0 <? height_m)%float = true /\
    float_pow2 pow_correctly_rounded height_m = Ok square /\
    (0 <? square)%float = true /\
    (forall weight : float,
       float_of_int 70 = Ok weight ->
       float_truediv weight square = Ok (weight / square)%float /\
       compute_bmi pow_correctly_rounded 170 70
       = Ok (weight / square)%float) /\
    compute_bmi pow_correctly_rounded 170 70 <> Raise ZeroDivisionError.
Proof.
  apply (bmi_division_safe pow_correctly_rounded 170 70).
  - intros x. left. reflexivity.
  - unfold height_cm_min, height_cm_max. lia.
Defined.

(** C6: for a height and a weight the widgets offer, the value the BMI tab
    displays is weight_kg / (height_cm / 100) ** 2 evaluated in binary64:
    the weight converts exactly, the height in meters and the result are
    the exact quotients up to rounding, the result within 2^-50 (relative)
    of weight_kg / (height_cm / 100)^2. *)
Theorem bmi_is_weight_over_height_squared
    (libm_pow : float -> float -> float) (height_cm weight_kg : Z) :
  pow_faithful libm_pow ->
  height_cm_min <= height_cm <= height_cm_max ->
  weight_kg_min <= weight_kg <= weight_kg_max ->
  exists height_m weight bmi : float,
    int_truediv height_cm 100 = Ok height_m /\
    float_of_int weight_kg = Ok weight /\
    bmi = (weight / libm_pow height_m 2)%float /\
    compute_bmi libm_pow height_cm weight_kg = Ok bmi /\
    check_my_bmi libm_pow height_cm weight_kg
      = Ok [st_subheader "Your BMI: " bmi; bmi_comment bmi;
            st_caption bmi_caption] /\
    (F2Q weight == inject_Z weight_kg)%Q /\
    (Qabs (F2Q height_m - inject_Z height_cm / 100)
       <= inject_Z height_cm / 100 * (1 # 2 ^ 53))%Q /\
    is_finite bmi = true /\
    (Qabs (F2Q bmi - bmi_exact height_cm weight_kg)
       <= bmi_exact height_cm weight_kg * (1 # 2 ^ 50))%Q.
Proof.
  intros Hpow Hh Hw.
  destruct (square_positive libm_pow height_cm Hpow Hh)
    as (m & Hm & _ & Hsq & _ & Hdiv).
  pose proof (proj1 (forallb_forall _ _) heights_close _ (heights_In _ Hh))
    as C.
  unfold height_close in C. rewrite Hm in C.
  apply andb_true_iff in C. destruct C as [Cm C].
  pose proof (proj1 (forallb_forall _ _) C _ (faithful_square _ m Hpow))
    as Cs.
  pose proof (proj1 (forallb_forall _ _) Cs _ (weights_In _ Hw)) as Cw.
  pose proof (proj1 (forallb_forall _ _) weights_exact _ (weights_In _ Hw))
    as Ce.
  unfold bmi_close in Cw. unfold weight_exact in Ce.
  destruct (float_of_int weight_kg) as [weight | ] eqn:Hweight;
    [ | discriminate ].
  exists m, weight, (weight / libm_pow m 2)%float.
  assert (Hbmi : compute_bmi libm_pow height_cm weight_kg
                 = Ok (weight / libm_pow m 2)%float).
  { unfold compute_bmi. rewrite Hm. cbn. rewrite Hsq. cbn.
    rewrite Hweight. cbn. apply Hdiv. }
  destruct (Prim2SF (weight / libm_pow m 2)%float) as [ | | | [ | ] M e] eqn:E;
    try discriminate.
  apply andb_true_iff in Cw. destruct Cw as [Cexp Cq].
  apply Z.leb_le in Cexp. apply Z.leb_le in Cq.
  unfold height_cm_min, weight_kg_min in *.
  repeat split; try assumption; try reflexivity.
  - unfold check_my_bmi. rewrite Hbmi. reflexivity.
  - apply Qeq_bool_iff. exact Ce.
  - apply Qle_bool_iff. exact Cm.
  - unfold is_finite. rewrite E. reflexivity.
  - unfold F2Q. rewrite E. apply close_sound; try assumption; lia.
Qed.

(** Rounding can cross a threshold: at 160 cm and 64 kg the exact BMI is
    25, the computed one (with a correctly rounded square) is just below,
    and the comment shown is the healthy one. *)
Lemma bmi_rounds_below_threshold :
  compute_bmi pow_correctly_rounded 160 64 = Ok (64 / (1.6 * 1.6))%float /\
  (64 / (1.6 * 1.6) <? 25)%float = true /\
  (bmi_exact 160 64 == 25)%Q /\
  bmi_comment (64 / (1.6 * 1.6))%float = st_success comment_healthy.
Proof. repeat split; vm_compute; reflexivity. Qed.

Lemma bmi_formula_witness :
  exists height_m weight bmi : float,
    int_truediv 170 100 = Ok height_m /\
    float_of_int 70 = Ok weight /\
    bmi = (weight / pow_correctly_rounded height_m 2)%float /\
    compute_bmi pow_correctly_rounded 170 70 = Ok bmi /\
    check_my_bmi pow_correctly_rounded 170 70
      = Ok [st_subheader "Your BMI: " bmi; bmi_comment bmi;
            st_caption bmi_caption] /\
    (F2Q weight == inject_Z 70)%Q /\
    (Qabs (F2Q height_m - inject_Z 170 / 100)
       <= inject_Z 170 / 100 * (1 # 2 ^ 53))%Q /\
    is_finite bmi = true /\
    (Qabs (F2Q bmi - bmi_exact 170 70)
       <= bmi_exact 170 70 * (1 # 2 ^ 50))%Q.
Proof.
  apply (bmi_is_weight_over_height_squared pow_correctly_rounded 170 70).
  - intros x. left. reflexivity.
  - unfold height_cm_min, height_cm_max. lia.
  - unfold weight_kg_min, weight_kg_max. lia.
Defined.

End BmiValue.

(** ** The helpers: [interpret_label] *)

Module Labels.

Lemma prefix_append (needle post : string) :
  String.prefix needle (String.append needle post) = true.
Proof.
  induction needle as [ | a needle IH]; cbn.
  - destruct post; reflexivity.
  - destruct (Ascii.ascii_dec a a) as [_ | N]; [ exact IH | contradiction ].
Qed.

Lemma prefix_inv (needle hay : string) :
  String.prefix needle hay = true ->
  exists post : string, hay = String.append needle post.
Proof.
  revert hay. induction needle as [ | a needle IH]; intros hay H.
  - exists hay. reflexivity.
  - destruct hay as [ | b hay]; cbn in H; [ discriminate | ].
    destruct (Ascii.ascii_dec a b) as [<- | _]; [ | discriminate ].
    destruct (IH hay H) as [post ->]. exists post. reflexivity.
Qed.

Lemma str_contains_unfold (needle hay : string) :
  str_contains needle hay
  = if String.prefix needle hay then true
    else match hay with
         | EmptyString => false
         | String _ rest => str_contains needle rest
         end.
Proof. destruct hay; reflexivity. Qed.

(** Python's [in] on strings decides [Contains]. *)
Lemma str_contains_iff (needle hay : string) :
  str_contains needle hay = true <-> Contains needle hay.
Proof.
  split.
  - induction hay as [ | b hay IH]; rewrite str_contains_unfold;
      destruct (String.prefix needle _) eqn:P; intros H;
      try discriminate H;
      try (destruct (prefix_inv _ _ P) as [post E];
           exists "", post; exact E).
    destruct (IH H) as (pre & post & ->).
    exists (String b pre), post. reflexivity.
  - intros (pre & post & ->).
    induction pre as [ | b pre IH]; rewrite str_contains_unfold.
    + change (String.append "" ?x) with x.
      rewrite prefix_append. reflexivity.
    + destruct (String.prefix needle _); [ reflexivity | exact IH ].
Qed.

Lemma str_contains_false (needle hay : string) :
  str_contains needle hay = false <-> ~ Contains needle hay.
Proof.
  rewrite <- str_contains_iff.
  destruct (str_contains needle hay); split; intros; congruence.
Qed.

(** C2 (with the order of the tests made explicit): [interpret_label]
    depends on the label only through the three containment tests, taken in
    order: a label containing "Obesity"
    maps to "High risk"; otherwise one containing "Overweight" maps to
    "Moderate risk"; otherwise one containing "Normal" maps to "Healthy
    range"; every other label maps to "Monitor". *)
Theorem interpret_label_cascade (label : string) :
  (Contains "Obesity" label -> interpret_label label = "High risk") /\
  (~ Contains "Obesity" label -> Contains "Overweight" label ->
     interpret_label label = "Moderate risk") /\
  (~ Contains "Obesity" label -> ~ Contains "Overweight" label ->
     Contains "Normal" label -> interpret_label label = "Healthy range") /\
  (~ Contains "Obesity" label -> ~ Contains "Overweight" label ->
     ~ Contains "Normal" label -> interpret_label label = "Monitor").
Proof.
  unfold interpret_label.
  repeat split; intros;
    repeat match goal with
           | H : Contains _ _ |- _ => apply str_contains_iff in H; rewrite H
           | H : ~ Contains _ _ |- _ =>
               apply str_contains_false in H; rewrite H
           end; reflexivity.
Qed.

(** C2 without the order does not hold: this label contains "Overweight"
    and does not map to "Moderate risk", because it also contains
    "Obesity". *)
Lemma interpret_label_overlap :
  Contains "Overweight" "Overweight_or_Obesity" /\
  interpret_label "Overweight_or_Obesity" = "High risk" /\
  interpret_label "Overweight_or_Obesity" <> "Moderate risk".
Proof.
  split; [ | split ].
  - exists "", "_or_Obesity". reflexivity.
  - reflexivity.
  - vm_compute. discriminate.
Qed.

End Labels.

(** ** The helpers: [pick_reasons] *)

Module Reasons.

Import FloatFacts.

(** C3: [pick_reasons] returns at most 4 strings. *)
Theorem pick_reasons_at_most_four
    (family : Z) (faf tue : float) (caec : string) (fcvc ch2o : float)
    (favc : Z) (calc : string) :
  (List.length (pick_reasons family faf tue caec fcvc ch2o favc calc)
   <= 4)%nat.
Proof. unfold pick_reasons. apply firstn_le_length. Qed.

Lemma same_float_leb_l (x y c : float) :
  same_float x y -> (x <=? c)%float = (y <=? c)%float.
Proof. intros [-> | E]; [ reflexivity | apply eqb_leb_l; exact E ]. Qed.

Lemma same_float_leb_r (x y c : float) :
  same_float x y -> (c <=? x)%float = (c <=? y)%float.
Proof. intros [-> | E]; [ reflexivity | apply eqb_leb_r; exact E ]. Qed.

(** C5: [pick_reasons] is deterministic and order-stable: two evaluations
    on the same values of the 8 inputs return the same list, element for
    element and in the same order. *)
Theorem pick_reasons_deterministic
    (family family' : Z) (faf faf' tue tue' : float) (caec caec' : string)
    (fcvc fcvc' ch2o ch2o' : float) (favc favc' : Z) (calc calc' : string) :
  family = family' -> same_float faf faf' -> same_float tue tue' ->
  caec = caec' -> same_float fcvc fcvc' -> same_float ch2o ch2o' ->
  favc = favc' -> calc = calc' ->
  pick_reasons family faf tue caec fcvc ch2o favc calc
    = pick_reasons family' faf' tue' caec' fcvc' ch2o' favc' calc' /\
  (forall i : nat,
     nth_error (pick_reasons family faf tue caec fcvc ch2o favc calc) i
     = nth_error
         (pick_reasons family' faf' tue' caec' fcvc' ch2o' favc' calc') i).
Proof.
  intros <- Hfaf Htue <- Hfcvc Hch2o <- <-.
  assert (E : pick_reasons family faf tue caec fcvc ch2o favc calc
              = pick_reasons family faf' tue' caec fcvc' ch2o' favc calc).
  { unfold pick_reasons.
    rewrite (same_float_leb_l _ _ _ Hfaf), (same_float_leb_r _ _ _ Htue),
      (same_float_leb_l _ _ _ Hfcvc), (same_float_leb_l _ _ _ Hch2o).
    reflexivity. }
  split; [ exact E | intros i; rewrite E; reflexivity ].
Qed.

Lemma pick_reasons_deterministic_witness :
  pick_reasons 1 0.5 1.5 "Always" 0 (-0) 0 "no"
    = pick_reasons 1 0.5 1.5 "Always" (-0) 0 0 "no" /\
  (forall i : nat,
     nth_error (pick_reasons 1 0.5 1.5 "Always" 0 (-0) 0 "no") i
     = nth_error (pick_reasons 1 0.5 1.5 "Always" (-0) 0 0 "no") i).
Proof.
  apply pick_reasons_deterministic;
    first [ reflexivity | left; reflexivity | right; vm_compute; reflexivity ].
Defined.

(** The eight appends of the code build the triggered texts of the rules. *)
Lemma appends_are_triggered (b1 b2 b3 b4 b5 b6 b7 b8 : bool) :
  append_if b8 reason_calc
    (append_if b7 reason_favc
       (append_if b6 reason_ch2o
          (append_if b5 reason_fcvc
             (append_if b4 reason_caec
                (append_if b3 reason_tue
                   (append_if b2 reason_faf
                      (append_if b1 reason_family []%list)))))))
  = triggered [ (b1, reason_family); (b2, reason_faf); (b3, reason_tue);
                (b4, reason_caec); (b5, reason_fcvc); (b6, reason_ch2o);
                (b7, reason_favc); (b8, reason_calc) ].
Proof.
  destruct b1, b2, b3, b4, b5, b6, b7, b8; reflexivity.
Qed.

Lemma in_list_two (s a b : string) :
  in_list s [a; b] = String.eqb s a || String.eqb s b.
Proof. unfold in_list. cbn. rewrite orb_false_r. reflexivity. Qed.

(** No text past the fourth triggered one is among the first four. *)
Lemma dropped_not_kept (b1 b2 b3 b4 b5 b6 b7 b8 : bool) :
  let l := triggered [ (b1, reason_family); (b2, reason_faf);
                       (b3, reason_tue); (b4, reason_caec);
                       (b5, reason_fcvc); (b6, reason_ch2o);
                       (b7, reason_favc); (b8, reason_calc) ] in
  forallb (fun r => negb (in_list r (firstn 4 l))) (skipn 4 l) = true.
Proof.
  destruct b1, b2, b3, b4, b5, b6, b7, b8; vm_compute; reflexivity.
Qed.

(** C10: [pick_reasons] returns exactly the first four of the canned texts
    whose trigger conditions hold, in declaration order; a triggered text
    past the fourth (such as the alcohol one when four earlier conditions
    hold) is dropped. *)
Theorem pick_reasons_first_four_triggered
    (family : Z) (faf tue : float) (caec : string) (fcvc ch2o : float)
    (favc : Z) (calc : string) :
  let selected :=
    triggered (reason_rules family faf tue caec fcvc ch2o favc calc) in
  pick_reasons family faf tue caec fcvc ch2o favc calc = firstn 4 selected /\
  List.length (pick_reasons family faf tue caec fcvc ch2o favc calc)
    = Nat.min 4 (List.length selected) /\
  (forall r : string,
     In r (skipn 4 selected) ->
     ~ In r (pick_reasons family faf tue caec fcvc ch2o favc calc)).
Proof.
  intros selected.
  assert (E : pick_reasons family faf tue caec fcvc ch2o favc calc
              = firstn 4 selected).
  { unfold pick_reasons, selected, reason_rules.
    rewrite !in_list_two, appends_are_triggered. reflexivity. }
  rewrite E. split; [ reflexivity | split ].
  - apply length_firstn.
  - intros r Hr Hkept.
    pose proof (dropped_not_kept (family =? 1) (faf <=? 0.7)%float
                  (1.2 <=? tue)%float
                  (String.eqb caec "Frequently" || String.eqb caec "Always")
                  (fcvc <=? 2.0)%float (ch2o <=? 1.7)%float (favc =? 1)
                  (String.eqb calc "Frequently" || String.eqb calc "Always"))
      as D.
    cbv zeta in D. fold (reason_rules family faf tue caec fcvc ch2o favc calc)
      in D. fold selected in D.
    pose proof (proj1 (forallb_forall _ _) D r Hr) as N.
    apply negb_true_iff in N.
    assert (Y : in_list r (firstn 4 selected) = true).
    { unfold in_list. apply existsb_exists. exists r.
      split; [ exact Hkept | apply String.eqb_refl ]. }
    congruence.
Qed.

End Reasons.

(** ** The helpers: [build_row] *)

Module Rows.

(** C7: when [feature_cols] has 14 entries, [build_row] produces a table
    with exactly one row, whose cells are the 14 arguments in the argument
    order and whose column names are [feature_cols]. *)
Theorem build_row_single_row
    (feature_cols : list string)
    (gender : string) (age family favc : Z) (fcvc ncp : float)
    (caec : string) (smoke : Z) (ch2o : float) (scc : Z) (faf tue : float)
    (calc mtrans : string) :
  List.length feature_cols = 14%nat ->
  exists df : DataFrame,
    build_row feature_cols gender age family favc fcvc ncp caec smoke ch2o
      scc faf tue calc mtrans = Ok df /\
    columns df = feature_cols /\
    List.length (values df) = 1%nat /\
    values df
      = [[c_str gender; c_int age; c_int family; c_int favc; c_float fcvc;
          c_float ncp; c_str caec; c_int smoke; c_float ch2o; c_int scc;
          c_float faf; c_float tue; c_str calc; c_str mtrans]] /\
    index df = [0%nat].
Proof.
  intros Hlen. unfold build_row, pd_DataFrame. cbn. rewrite Hlen. cbn.
  eexists. repeat split.
Qed.

Lemma build_row_witness :
  exists df : DataFrame,
    build_row ["Gender"; "Age"; "family_history_with_overweight"; "FAVC";
               "FCVC"; "NCP"; "CAEC"; "SMOKE"; "CH2O"; "SCC"; "FAF"; "TUE";
               "CALC"; "MTRANS"]
      "Female" 25 1 1 2 3 "Sometimes" 0 2 0 1 1 "Sometimes"
      "Public_Transportation" = Ok df /\
    columns df
      = ["Gender"; "Age"; "family_history_with_overweight"; "FAVC"; "FCVC";
         "NCP"; "CAEC"; "SMOKE"; "CH2O"; "SCC"; "FAF"; "TUE"; "CALC";
         "MTRANS"] /\
    List.length (values df) = 1%nat /\
    values df
      = [[c_str "Female"; c_int 25; c_int 1; c_int 1; c_float 2;
          c_float 3; c_str "Sometimes"; c_int 0; c_float 2; c_int 0;
          c_float 1; c_float 1; c_str "Sometimes";
          c_str "Public_Transportation"]] /\
    index df = [0%nat].
Proof.
  apply build_row_single_row. reflexivity.
Defined.

(** With any other number of column names the constructor raises. *)
Lemma build_row_wrong_width
    (feature_cols : list string)
    (gender : string) (age family favc : Z) (fcvc ncp : float)
    (caec : string) (smoke : Z) (ch2o : float) (scc : Z) (faf tue : float)
    (calc mtrans : string) :
  List.length feature_cols <> 14%nat ->
  build_row feature_cols gender age family favc fcvc ncp caec smoke ch2o
    scc faf tue calc mtrans = Raise ValueError.
Proof.
  intros Hlen. unfold build_row, pd_DataFrame.
  cbn [forallb List.length].
  destruct (Nat.eqb_spec 14 (List.length feature_cols)) as [E | _];
    [ congruence | reflexivity ].
Qed.

End Rows.

(** ** Tab 1: the probability table *)

Module ProbTable.

Import FloatOrder FloatFacts.

Lemma label_rows_pairs (start : nat) (classes : list string)
    (proba : list float) :
  pairs (label_rows start classes proba) = combine classes proba.
Proof.
  revert start proba.
  induction classes as [ | c classes IH]; intros start [ | p proba]; cbn;
    try reflexivity.
  f_equal. apply IH.
Qed.

Lemma label_rows_Probability (start : nat) (classes : list string)
    (proba : list float) :
  List.length classes = List.length proba ->
  map Probability (label_rows start classes proba) = proba.
Proof.
  revert start proba.
  induction classes as [ | c classes IH]; intros start [ | p proba] H;
    cbn in *; try reflexivity; try discriminate.
  f_equal. apply IH. lia.
Qed.

Lemma insert_desc_perm (r : prob_row) (l : list prob_row) :
  Permutation (insert_desc r l) (r :: l).
Proof.
  induction l as [ | r' l IH]; cbn.
  - reflexivity.
  - destruct (Probability r' <=? Probability r)%float.
    + reflexivity.
    + rewrite IH. apply perm_swap.
Qed.

Lemma insertion_sort_perm (l : list prob_row) :
  Permutation (fold_right insert_desc [] l) l.
Proof.
  induction l as [ | r l IH]; cbn.
  - reflexivity.
  - rewrite insert_desc_perm. apply perm_skip. exact IH.
Qed.

Lemma insert_desc_sorted (r : prob_row) (l : list prob_row) :
  number (Probability r) ->
  Forall (fun x => number (Probability x)) l ->
  StronglySorted desc l ->
  StronglySorted desc (insert_desc r l).
Proof.
  intros Nr Nl Sl. induction Sl as [ | r' l Sl IH Hr']; cbn.
  - constructor; constructor.
  - inversion Nl as [ | ? ? Nr' Nl']; subst.
    destruct (Probability r' <=? Probability r)%float eqn:E.
    + constructor; [ constructor; assumption | ].
      constructor; [ exact E | ].
      eapply Forall_impl; [ | exact Hr' ].
      intros x Hx. unfold desc in *. eapply leb_trans; eassumption.
    + constructor; [ apply IH; assumption | ].
      apply (Permutation_Forall (Permutation_sym (insert_desc_perm r l))).
      constructor; [ | exact Hr' ].
      unfold desc. apply leb_total; assumption.
Qed.

Lemma insertion_sort_sorted (l : list prob_row) :
  Forall (fun x => number (Probability x)) l ->
  StronglySorted desc (fold_right insert_desc [] l).
Proof.
  induction 1 as [ | r l Nr Nl IH]; cbn.
  - constructor.
  - apply insert_desc_sorted; try assumption.
    apply (Permutation_Forall (Permutation_sym (insertion_sort_perm l))).
    exact Nl.
Qed.

Lemma filter_all (A : Type) (f : A -> bool) (l : list A) :
  Forall (fun x => f x = true) l -> filter f l = l.
Proof.
  induction 1 as [ | x l Hx _ IH]; cbn; [ reflexivity | ].
  rewrite Hx, IH. reflexivity.
Qed.

Lemma filter_none (A : Type) (f : A -> bool) (l : list A) :
  Forall (fun x => f x = false) l -> filter f l = [].
Proof.
  induction 1 as [ | x l Hx _ IH]; cbn; [ reflexivity | ].
  rewrite Hx, IH. reflexivity.
Qed.

(** Without NaN keys, [sort_values_desc] is the insertion sort. *)
Lemma sort_values_numbers (rows : list prob_row) :
  Forall (fun r => is_nan (Probability r) = false) rows ->
  sort_values_desc rows = fold_right insert_desc [] rows.
Proof.
  intros H. unfold sort_values_desc.
  rewrite filter_all, filter_none; [ apply app_nil_r | exact H | ].
  eapply Forall_impl; [ | exact H ].
  intros r Hr. cbn in *. rewrite Hr. reflexivity.
Qed.

Lemma relabel_pairs (start : nat) (rows : list prob_row) :
  pairs (relabel start rows) = pairs rows.
Proof.
  revert start. induction rows as [ | r rows IH]; intros start; cbn;
    [ reflexivity | ]. f_equal. apply IH.
Qed.

Lemma relabel_Probability (start : nat) (rows : list prob_row) :
  map Probability (relabel start rows) = map Probability rows.
Proof.
  revert start. induction rows as [ | r rows IH]; intros start; cbn;
    [ reflexivity | ]. f_equal. apply IH.
Qed.

Lemma relabel_labels (start : nat) (rows : list prob_row) :
  map row_label (relabel start rows) = seq start (List.length rows).
Proof.
  revert start. induction rows as [ | r rows IH]; intros start; cbn;
    [ reflexivity | ]. f_equal. apply IH.
Qed.

Lemma sorted_map (l : list prob_row) :
  StronglySorted desc l -> descending (map Probability l).
Proof.
  unfold descending. induction 1 as [ | r l _ IH Hr]; cbn; constructor.
  - exact IH.
  - apply Forall_map. exact Hr.
Qed.

(** C8: for a probability vector (one number per class), the displayed
    table pairs each class with its probability, is sorted by probability
    in descending order, and the top-3 table is its first three rows. *)
Theorem prob_table_sorted_descending
    (classes : list string) (proba : list float) :
  List.length classes = List.length proba ->
  Forall (fun p => is_nan p = false) proba ->
  exists df : list prob_row,
    prob_df classes proba = Ok df /\
    Permutation (pairs df) (combine classes proba) /\
    descending (map Probability df) /\
    map row_label df = seq 0 (List.length classes) /\
    top3 classes proba = Ok (firstn 3 df).
Proof.
  intros Hlen Hnum.
  unfold top3, prob_df, prob_frame. rewrite Hlen, Nat.eqb_refl. cbn.
  set (rows := label_rows 0 classes proba).
  assert (Hrows : map Probability rows = proba)
    by (apply label_rows_Probability; exact Hlen).
  assert (Hnan : Forall (fun r => is_nan (Probability r) = false) rows).
  { rewrite <- Hrows in Hnum. rewrite Forall_map in Hnum. exact Hnum. }
  assert (Hn : Forall (fun r => number (Probability r)) rows).
  { eapply Forall_impl; [ | exact Hnan ].
    intros r Hr. apply is_nan_number. exact Hr. }
  exists (reset_index (sort_values_desc rows)).
  rewrite (sort_values_numbers rows Hnan). unfold reset_index, head.
  repeat split.
  - rewrite relabel_pairs. unfold pairs.
    rewrite (Permutation_map _ (insertion_sort_perm rows)).
    apply Permutation_refl'. apply label_rows_pairs.
  - rewrite relabel_Probability. apply sorted_map.
    apply insertion_sort_sorted. exact Hn.
  - rewrite relabel_labels.
    rewrite (Permutation_length (insertion_sort_perm rows)).
    rewrite <- (length_map Probability rows), Hrows. reflexivity.
Qed.

Lemma prob_table_witness :
  exists df : list prob_row,
    prob_df ["Normal_Weight"; "Obesity_Type_I"; "Overweight_Level_I";
             "Insufficient_Weight"]
            [0.125; 0.5; 0.25; 0.125]%float = Ok df /\
    Permutation (pairs df)
      (combine ["Normal_Weight"; "Obesity_Type_I"; "Overweight_Level_I";
                "Insufficient_Weight"]
               [0.125; 0.5; 0.25; 0.125]%float) /\
    descending (map Probability df) /\
    map row_label df = seq 0 4 /\
    top3 ["Normal_Weight"; "Obesity_Type_I"; "Overweight_Level_I";
          "Insufficient_Weight"]
         [0.125; 0.5; 0.25; 0.125]%float = Ok (firstn 3 df).
Proof.
  apply (prob_table_sorted_descending
           ["Normal_Weight"; "Obesity_Type_I"; "Overweight_Level_I";
            "Insufficient_Weight"]
           [0.125; 0.5; 0.25; 0.125]%float).
  - reflexivity.
  - repeat constructor.
Defined.

End ProbTable.

(** ** More on [pick_reasons] and its caller *)

Module ReasonsMore.

Import Reasons.

Lemma in_list_In (s : string) (l : list string) :
  in_list s l = true <-> In s l.
Proof.
  unfold in_list. rewrite existsb_exists. split.
  - intros (x & Hx & E). apply String.eqb_eq in E. subst. exact Hx.
  - intros H. exists s. split; [ exact H | apply String.eqb_refl ].
Qed.

Lemma pick_reasons_triggered
    (family : Z) (faf tue : float) (caec : string) (fcvc ch2o : float)
    (favc : Z) (calc : string) :
  pick_reasons family faf tue caec fcvc ch2o favc calc
  = firstn 4
      (triggered (reason_rules family faf tue caec fcvc ch2o favc calc)).
Proof.
  unfold pick_reasons, reason_rules.
  rewrite !in_list_two, appends_are_triggered. reflexivity.
Qed.

Lemma shown_bool (b1 b2 b3 b4 b5 b6 b7 b8 : bool) (i : nat) (c : bool)
    (text : string) :
  let rules := [ (b1, reason_family); (b2, reason_faf); (b3, reason_tue);
                 (b4, reason_caec); (b5, reason_fcvc); (b6, reason_ch2o);
                 (b7, reason_favc); (b8, reason_calc) ] in
  nth_error rules i = Some (c, text) ->
  in_list text (firstn 4 (triggered rules))
  = c && (earlier_triggered i rules <? 4)%nat.
Proof.
  cbv zeta.
  do 8 (destruct i as [ | i];
        [ intros [= <- <-];
          destruct b1, b2, b3, b4, b5, b6, b7, b8; vm_compute; reflexivity
        | ]).
  destruct i; discriminate.
Qed.

(** A rule's text is shown exactly when its condition holds and fewer than
    four earlier rules have theirs hold; in particular the first four rules
    are never dropped. *)
Theorem reason_shown_iff
    (family : Z) (faf tue : float) (caec : string) (fcvc ch2o : float)
    (favc : Z) (calc : string) (i : nat) (c : bool) (text : string) :
  nth_error (reason_rules family faf tue caec fcvc ch2o favc calc) i
    = Some (c, text) ->
  (In text (pick_reasons family faf tue caec fcvc ch2o favc calc) <->
   c = true /\
   (earlier_triggered i
      (reason_rules family faf tue caec fcvc ch2o favc calc) < 4)%nat) /\
  ((i < 4)%nat ->
   (In text (pick_reasons family faf tue caec fcvc ch2o favc calc) <->
    c = true)).
Proof.
  intros Hi. rewrite pick_reasons_triggered, <- in_list_In.
  pose proof (shown_bool _ _ _ _ _ _ _ _ i c text Hi) as S.
  cbv zeta in S.
  fold (reason_rules family faf tue caec fcvc ch2o favc calc) in S.
  rewrite S, andb_true_iff, Nat.ltb_lt.
  assert (B : (earlier_triggered i
                 (reason_rules family faf tue caec fcvc ch2o favc calc)
               <= i)%nat).
  { unfold earlier_triggered.
    etransitivity; [ apply filter_length_le | apply firstn_le_length ]. }
  split; [ tauto | ]. intros Hlt. split; [ tauto | ]. intros ->.
  split; [ reflexivity | lia ].
Qed.

Lemma reason_shown_witness :
  (In reason_calc (pick_reasons 1 0.5 1.5 "Always" 3 3 0 "Always") <->
   true = true /\
   (earlier_triggered 7
      (reason_rules 1 0.5 1.5 "Always" 3 3 0 "Always") < 4)%nat) /\
  ((7 < 4)%nat ->
   (In reason_calc (pick_reasons 1 0.5 1.5 "Always" 3 3 0 "Always") <->
    true = true)).
Proof.
  apply (reason_shown_iff 1 0.5 1.5 "Always" 3 3 0 "Always" 7 true
           reason_calc).
  reflexivity.
Defined.

Lemma nodupb_NoDup (l : list string) : nodupb l = true -> NoDup l.
Proof.
  induction l as [ | x l IH]; cbn; intros H; constructor.
  - apply andb_true_iff in H. destruct H as [H _].
    apply negb_true_iff in H. intros I. apply in_list_In in I. congruence.
  - apply IH. apply andb_true_iff in H. tauto.
Qed.

Lemma triggered_nodupb (b1 b2 b3 b4 b5 b6 b7 b8 : bool) :
  nodupb (firstn 4
            (triggered [ (b1, reason_family); (b2, reason_faf);
                         (b3, reason_tue); (b4, reason_caec);
                         (b5, reason_fcvc); (b6, reason_ch2o);
                         (b7, reason_favc); (b8, reason_calc) ])) = true.
Proof.
  destruct b1, b2, b3, b4, b5, b6, b7, b8; vm_compute; reflexivity.
Qed.

(** No reason is listed twice. *)
Theorem pick_reasons_NoDup
    (family : Z) (faf tue : float) (caec : string) (fcvc ch2o : float)
    (favc : Z) (calc : string) :
  NoDup (pick_reasons family faf tue caec fcvc ch2o favc calc).
Proof.
  rewrite pick_reasons_triggered. apply nodupb_NoDup.
  unfold reason_rules. apply triggered_nodupb.
Qed.

(** The "Why this result?" section writes between one and four lines: the
    fallback sentence exactly when no rule's condition holds, and otherwise
    one bullet per selected reason, in order. *)
Theorem why_this_result_lines
    (family : Z) (faf tue : float) (caec : string) (fcvc ch2o : float)
    (favc : Z) (calc : string) :
  let selected :=
    triggered (reason_rules family faf tue caec fcvc ch2o favc calc) in
  let lines :=
    why_this_result (pick_reasons family faf tue caec fcvc ch2o favc calc) in
  (1 <= List.length lines <= 4)%nat /\
  (lines = [no_signal_text] <-> selected = []) /\
  (selected <> [] ->
   lines = map (fun r => String.append "• " r) (firstn 4 selected)).
Proof.
  intros selected lines. unfold lines. rewrite pick_reasons_triggered.
  fold selected.
  destruct selected as [ | r selected'].
  - cbn. repeat split; try lia; congruence.
  - change (firstn 4 (r :: selected')) with (r :: firstn 3 selected').
    cbn [why_this_result map]. split; [ | split ].
    + cbn [List.length]. rewrite length_map.
      pose proof (firstn_le_length 3 selected'). lia.
    + split; [ | discriminate ].
      unfold no_signal_text. intros E. cbn in E. discriminate E.
    + reflexivity.
Qed.

End ReasonsMore.

(** ** More on [interpret_label] and its caller *)

Module LabelsMore.

Import Labels.

(** The banner's kind follows the label's keywords: the three literals the
    dispatch compares with are the three risk bands [interpret_label]
    returns, so the [else] branch is taken for "Monitor" only. *)
Theorem banner_follows_label (pred : string) :
  (Contains "Obesity" pred ->
     show_prediction pred = st_error (banner_text pred "High risk")) /\
  (~ Contains "Obesity" pred -> Contains "Overweight" pred ->
     show_prediction pred = st_warning (banner_text pred "Moderate risk")) /\
  (~ Contains "Obesity" pred -> ~ Contains "Overweight" pred ->
     Contains "Normal" pred ->
     show_prediction pred = st_success (banner_text pred "Healthy range")) /\
  (~ Contains "Obesity" pred -> ~ Contains "Overweight" pred ->
     ~ Contains "Normal" pred ->
     show_prediction pred = st_info (banner_text pred "Monitor")).
Proof.
  unfold show_prediction, interpret_label.
  repeat split; intros;
    repeat match goal with
           | H : Contains _ _ |- _ => apply str_contains_iff in H; rewrite H
           | H : ~ Contains _ _ |- _ =>
               apply str_contains_false in H; rewrite H
           end; reflexivity.
Qed.

Lemma letter_not_letter (a c : ascii) :
  is_letter a = true -> is_letter c = false -> a <> c.
Proof. intros Ha Hc ->. congruence. Qed.

(** A needle that starts with a letter is no prefix of a string that
    starts with another kind of character. *)
Lemma prefix_other_head (a c : ascii) (needle hay : string) :
  is_letter a = true -> is_letter c = false ->
  String.prefix (String a needle) (String c hay) = false.
Proof.
  intros Ha Hc. cbn.
  destruct (Ascii.ascii_dec a c) as [E | _]; [ | reflexivity ].
  exfalso. exact (letter_not_letter a c Ha Hc E).
Qed.

Lemma no_letters_cons (c : ascii) (s : string) :
  no_letters (String c s) = true ->
  is_letter c = false /\ no_letters s = true.
Proof.
  unfold no_letters. cbn. intros H. apply andb_true_iff in H.
  destruct H as [H1 H2]. apply negb_true_iff in H1. tauto.
Qed.

Lemma all_letters_cons (a : ascii) (s : string) :
  all_letters (String a s) = true ->
  is_letter a = true /\ all_letters s = true.
Proof.
  unfold all_letters. cbn. intros H. apply andb_true_iff in H. exact H.
Qed.

Lemma str_contains_skip_pre (a : ascii) (needle pre hay : string) :
  is_letter a = true -> no_letters pre = true ->
  str_contains (String a needle) (String.append pre hay)
  = str_contains (String a needle) hay.
Proof.
  intros Ha. induction pre as [ | c pre IH]; intros Hpre.
  - reflexivity.
  - apply no_letters_cons in Hpre. destruct Hpre as [Hc Hpre].
    change (String.append (String c pre) hay)
      with (String c (String.append pre hay)).
    rewrite str_contains_unfold, (prefix_other_head a c _ _ Ha Hc).
    apply IH. exact Hpre.
Qed.

Lemma prefix_skip_post (needle hay post : string) :
  all_letters needle = true -> no_letters post = true ->
  String.prefix needle (String.append hay post) = String.prefix needle hay.
Proof.
  revert hay. induction needle as [ | a needle IH]; intros hay Hn Hp.
  - destruct hay, post; reflexivity.
  - apply all_letters_cons in Hn. destruct Hn as [Ha Hn].
    destruct hay as [ | b hay].
    + change (String.append "" post) with post.
      destruct post as [ | c post]; [ reflexivity | ].
      apply no_letters_cons in Hp. destruct Hp as [Hc _].
      rewrite (prefix_other_head a c _ _ Ha Hc). reflexivity.
    + cbn. destruct (Ascii.ascii_dec a b); [ | reflexivity ].
      apply IH; assumption.
Qed.

Lemma str_contains_skip_post (a : ascii) (needle hay post : string) :
  all_letters (String a needle) = true -> no_letters post = true ->
  str_contains (String a needle) (String.append hay post)
  = str_contains (String a needle) hay.
Proof.
  intros Hn Hp. induction hay as [ | b hay IH].
  - change (String.append "" post) with post.
    rewrite <- (str_contains_skip_pre a needle post ""
                  (proj1 (all_letters_cons _ _ Hn)) Hp).
    f_equal. clear. induction post as [ | c post IH]; cbn; congruence.
  - change (String.append (String b hay) post)
      with (String b (String.append hay post)).
    rewrite (str_contains_unfold _ (String b (String.append hay post))),
      (str_contains_unfold _ (String b hay)).
    change (String b (String.append hay post))
      with (String.append (String b hay) post).
    rewrite (prefix_skip_post _ _ _ Hn Hp), IH. reflexivity.
Qed.

(** Wrapping a label in characters that are not letters (such as the
    brackets and quotes around a one-element list) does not change its risk
    band. *)
Theorem interpret_label_wrapped (pre label post : string) :
  no_letters pre = true -> no_letters post = true ->
  interpret_label (String.append pre (String.append label post))
  = interpret_label label.
Proof.
  intros Hpre Hpost. unfold interpret_label.
  assert (W : forall (a : ascii) (needle : string),
             all_letters (String a needle) = true ->
             str_contains (String a needle)
               (String.append pre (String.append label post))
             = str_contains (String a needle) label).
  { intros a needle Hn.
    rewrite (str_contains_skip_pre a needle pre _
               (proj1 (all_letters_cons _ _ Hn)) Hpre).
    apply str_contains_skip_post; assumption. }
  rewrite !W by reflexivity. reflexivity.
Qed.

Lemma interpret_label_wrapped_witness :
  interpret_label
    (String.append "['" (String.append "Obesity_Type_I" "']"))
  = interpret_label "Obesity_Type_I".
Proof.
  apply interpret_label_wrapped; reflexivity.
Defined.

End LabelsMore.

(** ** More on [build_row] and the probability table *)

Module TablesMore.

Import FloatOrder FloatFacts Rows ProbTable.

Lemma build_row_wrong_width_witness :
  build_row ["Gender"; "Age"] "Female" 25 1 1 2 3 "Sometimes" 0 2 0 1 1
    "Sometimes" "Public_Transportation" = Raise ValueError.
Proof.
  apply build_row_wrong_width. cbn. discriminate.
Defined.

Lemma leb_refl (x : float) : number x -> (x <=? x)%float = true.
Proof.
  intros N. apply leb_iff. repeat split; try assumption. key_lia.
Qed.

(** The rows of [prob_df], before any statement about their order. *)
Lemma prob_df_rows (classes : list string) (proba : list float) :
  List.length classes = List.length proba ->
  Forall (fun p => is_nan p = false) proba ->
  exists rows : list prob_row,
    map Probability rows = proba /\
    prob_df classes proba
    = Ok (relabel 0 (fold_right insert_desc [] rows)) /\
    StronglySorted desc (fold_right insert_desc [] rows).
Proof.
  intros Hlen Hnum. unfold prob_df, prob_frame.
  rewrite Hlen, Nat.eqb_refl. cbn.
  set (rows := label_rows 0 classes proba).
  assert (Hrows : map Probability rows = proba)
    by (apply label_rows_Probability; exact Hlen).
  assert (Hnan : Forall (fun r => is_nan (Probability r) = false) rows).
  { rewrite <- Hrows in Hnum. rewrite Forall_map in Hnum. exact Hnum. }
  exists rows. rewrite (sort_values_numbers rows Hnan).
  repeat split; try assumption.
  apply insertion_sort_sorted.
  eapply Forall_impl; [ | exact Hnan ].
  intros r Hr. apply is_nan_number. exact Hr.
Qed.

Lemma relabel_head (start : nat) (r : prob_row) (rows : list prob_row) :
  relabel start (r :: rows)
  = mkProbRow start (Category r) (Probability r) :: relabel (S start) rows.
Proof. reflexivity. Qed.

Lemma relabel_length (start : nat) (rows : list prob_row) :
  List.length (relabel start rows) = List.length rows.
Proof.
  rewrite <- (length_map row_label), relabel_labels. apply length_seq.
Qed.

(** The first row of the table carries the largest probability, and the
    top-3 table has three rows, or all of them when there are fewer
    classes. *)
Theorem top_row_is_maximal
    (classes : list string) (proba : list float) :
  List.length classes = List.length proba ->
  Forall (fun p => is_nan p = false) proba ->
  exists df top : list prob_row,
    prob_df classes proba = Ok df /\
    top3 classes proba = Ok top /\
    List.length df = List.length classes /\
    List.length top = Nat.min 3 (List.length classes) /\
    (forall (r : prob_row) (rest : list prob_row) (p : float),
       df = r :: rest -> In p proba ->
       (p <=? Probability r)%float = true /\ hd_error top = Some r).
Proof.
  intros Hlen Hnum.
  destruct (prob_df_rows classes proba Hlen Hnum)
    as (rows & Hrows & Hdf & Hsorted).
  pose proof (insertion_sort_perm rows) as Hperm.
  set (sorted := fold_right insert_desc [] rows) in *.
  assert (Hlength : List.length (relabel 0 sorted) = List.length classes).
  { rewrite relabel_length, (Permutation_length Hperm).
    rewrite <- (length_map Probability rows), Hrows, Hlen. reflexivity. }
  exists (relabel 0 sorted), (firstn 3 (relabel 0 sorted)).
  unfold top3. rewrite Hdf. cbn [bind]. unfold head.
  repeat split; try assumption.
  - rewrite length_firstn, Hlength. reflexivity.
  - destruct sorted as [ | r0 sorted'] eqn:Es; [ discriminate | ].
    rewrite relabel_head in H. injection H as <- _. cbn [Probability].
    assert (Np : number p).
    { rewrite Forall_forall in Hnum. apply is_nan_number, Hnum, H0. }
    rewrite <- Hrows in H0. apply in_map_iff in H0.
    destruct H0 as (x & <- & Hx).
    apply (Permutation_in _ (Permutation_sym Hperm)) in Hx.
    destruct Hx as [<- | Hx].
    + apply leb_refl. exact Np.
    + inversion Hsorted as [ | ? ? _ Hall]; subst.
      rewrite Forall_forall in Hall. exact (Hall x Hx).
  - destruct sorted; [ discriminate | ].
    rewrite relabel_head in H. injection H as <- _. reflexivity.
Qed.

Lemma top_row_witness :
  exists df top : list prob_row,
    prob_df ["Normal_Weight"; "Obesity_Type_I"] [0.25; 0.75]%float = Ok df /\
    top3 ["Normal_Weight"; "Obesity_Type_I"] [0.25; 0.75]%float = Ok top /\
    List.length df = 2%nat /\
    List.length top = Nat.min 3 2 /\
    (forall (r : prob_row) (rest : list prob_row) (p : float),
       df = r :: rest -> In p [0.25; 0.75]%float ->
       (p <=? Probability r)%float = true /\ hd_error top = Some r).
Proof.
  apply (top_row_is_maximal ["Normal_Weight"; "Obesity_Type_I"]
           [0.25; 0.75]%float).
  - reflexivity.
  - repeat constructor.
Defined.

End TablesMore.

(** ** The sidebar *)

Module SidebarFacts.

Lemma reset_values (st : session_state) :
  forallb (fun kw =>
             match reset_to_demo st (fst kw) with
             | Some v => admits (snd kw) v
             | None => false
             end) sidebar_widgets = true.
Proof. vm_compute. reflexivity. Qed.

(** After "Reset to demo values", every widget's key holds a value its
    widget admits (one of its options, or within its bounds), whatever the
    state was before; every other key is left as it was; and resetting
    twice is resetting once. *)
Theorem reset_to_demo_valid (st : session_state) (key : string) :
  (forall w : widget,
     In (key, w) sidebar_widgets ->
     exists v : value, reset_to_demo st key = Some v /\ admits w v = true) /\
  (~ In key widget_keys -> reset_to_demo st key = st key) /\
  reset_to_demo (reset_to_demo st) key = reset_to_demo st key.
Proof.
  split; [ | split ].
  - intros w Hw.
    pose proof (proj1 (forallb_forall _ _) (reset_values st) _ Hw) as V.
    cbn [fst snd] in V.
    destruct (reset_to_demo st key) as [v | ]; [ | discriminate ].
    exists v. split; [ reflexivity | exact V ].
  - intros Hkey. unfold widget_keys in Hkey. cbn in Hkey.
    unfold reset_to_demo, set_item.
    repeat match goal with
           | |- context [String.eqb key ?k] =>
               destruct (String.eqb_spec key k) as [-> | _];
               [ exfalso; apply Hkey; tauto | ]
           end.
    reflexivity.
  - unfold reset_to_demo, set_item.
    repeat match goal with
           | |- context [String.eqb key ?k] =>
               destruct (String.eqb_spec key k) as [-> | _];
               [ reflexivity | ]
           end.
    reflexivity.
Qed.

End SidebarFacts.

(** ** More on the BMI tab *)

Module BmiMore.

Import FloatOrder FloatFacts RangeCheck RangeCheck2 BmiBands BmiValue.

Lemma bmi_comment_band (bmi : float) :
  bmi_comment bmi = band_comment (band_of_float bmi).
Proof.
  unfold bmi_comment, band_of_float.
  destruct (bmi <? 18.5)%float, (bmi <? 25)%float, (bmi <? 30)%float;
    reflexivity.
Qed.

Lemma band_eqb_eq (a b : band) : band_eqb a b = true -> a = b.
Proof. destruct a, b; cbn; congruence. Qed.

Lemma heights_bands_agree : forallb height_bands_agree heights = true.
Proof. vm_compute. reflexivity. Qed.

Lemma heights_steps_ascend : forallb height_steps_ascend heights = true.
Proof. vm_compute. reflexivity. Qed.

Lemma weight_floats_In (w : Z) :
  weight_kg_min <= w <= weight_kg_max ->
  In (w, float_of_int w) weight_floats.
Proof.
  intros H. unfold weight_floats.
  apply (in_map (fun w => (w, float_of_int w))). apply weights_In. exact H.
Qed.

(** Rounding does not change the band, except possibly when the exact BMI
    is one of the thresholds: for a height and a weight the widgets offer
    whose exact BMI weight_kg / (height_cm / 100)^2 is none of 18.5, 25 and
    30, the comment shown is the one of the exact BMI's band. *)
Theorem band_is_exact_band
    (libm_pow : float -> float -> float) (height_cm weight_kg : Z) :
  pow_faithful libm_pow ->
  height_cm_min <= height_cm <= height_cm_max ->
  weight_kg_min <= weight_kg <= weight_kg_max ->
  on_threshold height_cm weight_kg = false ->
  exists bmi : float,
    compute_bmi libm_pow height_cm weight_kg = Ok bmi /\
    bmi_comment bmi = band_comment (exact_band height_cm weight_kg).
Proof.
  intros Hpow Hh Hw Ht.
  destruct (square_positive libm_pow height_cm Hpow Hh)
    as (m & Hm & _ & Hsq & _ & Hdiv).
  pose proof (proj1 (forallb_forall _ _) heights_bands_agree _
                (heights_In _ Hh)) as A.
  unfold height_bands_agree in A. rewrite Hm in A.
  pose proof (proj1 (forallb_forall _ _) A _ (faithful_square _ m Hpow))
    as As.
  pose proof (proj1 (forallb_forall _ _) As _ (weight_floats_In _ Hw))
    as Aw.
  unfold band_agrees in Aw. cbn [fst snd] in Aw.
  destruct (float_of_int weight_kg) as [weight | ] eqn:Hweight;
    [ | discriminate ].
  rewrite Ht in Aw. cbn [orb] in Aw. apply band_eqb_eq in Aw.
  exists (weight / libm_pow m 2)%float. split.
  - unfold compute_bmi. rewrite Hm. cbn [bind]. rewrite Hsq. cbn [bind].
    rewrite Hweight. cbn [bind]. apply Hdiv.
  - rewrite bmi_comment_band, Aw. reflexivity.
Qed.

Lemma band_is_exact_band_witness :
  exists bmi : float,
    compute_bmi pow_correctly_rounded 170 70 = Ok bmi /\
    bmi_comment bmi = band_comment (exact_band 170 70).
Proof.
  apply (band_is_exact_band pow_correctly_rounded 170 70).
  - intros x. left. reflexivity.
  - unfold height_cm_min, height_cm_max. lia.
  - unfold weight_kg_min, weight_kg_max. lia.
  - vm_compute. reflexivity.
Defined.

Lemma zrange_cons (lo : Z) (n : nat) :
  zrange lo (S n) = lo :: zrange (lo + 1) n.
Proof.
  unfold zrange. cbn [seq map]. f_equal; [ lia | ].
  rewrite <- seq_shift, map_map. apply map_ext. intros i. lia.
Qed.

Lemma steps_In (A : Type) (f : Z -> A) (n : nat) (lo w : Z) :
  lo <= w < lo + Z.of_nat n ->
  In (f w, f (w + 1))
     (combine (map f (zrange lo (S n))) (tl (map f (zrange lo (S n))))).
Proof.
  revert lo. induction n as [ | n IH]; intros lo H; [ lia | ].
  rewrite (zrange_cons lo (S n)). cbn [map tl].
  rewrite (zrange_cons (lo + 1) n). cbn [map combine].
  destruct (Z.eq_dec w lo) as [-> | Hne]; [ left; reflexivity | right ].
  specialize (IH (lo + 1) ltac:(lia)).
  rewrite (zrange_cons (lo + 1) n) in IH. cbn [map tl] in IH. exact IH.
Qed.

Lemma weight_steps_In (w : Z) :
  weight_kg_min <= w < weight_kg_max ->
  In ((w, float_of_int w), (w + 1, float_of_int (w + 1))) weight_steps.
Proof.
  intros H. unfold weight_steps, weight_floats, weights.
  change (Z.to_nat (weight_kg_max - weight_kg_min + 1)) with (S 165).
  apply (steps_In _ (fun w => (w, float_of_int w)) 165 weight_kg_min w).
  unfold weight_kg_min, weight_kg_max in *. lia.
Qed.

(** The quotient of a weight by a square, as [compute_bmi] forms it. *)
Lemma quotient_ascends
    (libm_pow : float -> float -> float) (height_cm : Z) (m : float) :
  pow_faithful libm_pow ->
  height_cm_min <= height_cm <= height_cm_max ->
  int_truediv height_cm 100 = Ok m ->
  forall (n : nat) (w1 : Z),
    weight_kg_min <= w1 -> w1 + Z.of_nat n < weight_kg_max ->
    exists x y : float,
      float_of_int w1 = Ok x /\
      float_of_int (w1 + Z.of_nat n + 1) = Ok y /\
      (x / libm_pow m 2 <=? y / libm_pow m 2)%float = true.
Proof.
  intros Hpow Hh Hm.
  pose proof (proj1 (forallb_forall _ _) heights_steps_ascend _
                (heights_In _ Hh)) as A.
  unfold height_steps_ascend in A. rewrite Hm in A.
  pose proof (proj1 (forallb_forall _ _) A _ (faithful_square _ m Hpow))
    as As.
  assert (Step : forall w : Z,
             weight_kg_min <= w < weight_kg_max ->
             exists x y : float,
               float_of_int w = Ok x /\ float_of_int (w + 1) = Ok y /\
               (x / libm_pow m 2 <=? y / libm_pow m 2)%float = true).
  { intros w Hw.
    pose proof (proj1 (forallb_forall _ _) As _ (weight_steps_In _ Hw))
      as S.
    unfold step_ascends in S. cbn [fst snd] in S.
    destruct (float_of_int w) as [x | ]; [ | discriminate ].
    destruct (float_of_int (w + 1)) as [y | ]; [ | discriminate ].
    exists x, y. repeat split. exact S. }
  induction n as [ | n IH]; intros w1 Hlo Hhi.
  - rewrite Z.add_0_r in *. apply Step. lia.
  - destruct (IH w1 Hlo ltac:(lia)) as (x & y & Hx & Hy & L).
    destruct (Step (w1 + Z.of_nat n + 1) ltac:(lia))
      as (y' & z & Hy' & Hz & L').
    rewrite Hy in Hy'. injection Hy' as <-.
    exists x, z. repeat split; try assumption.
    + rewrite <- Hz. f_equal. lia.
    + eapply leb_trans; eassumption.
Qed.

(** The band of a smaller float is not above the band of a larger one. *)
Lemma band_monotone (b1 b2 : float) :
  (b1 <=? b2)%float = true ->
  (band_rank (band_of_float b1) <= band_rank (band_of_float b2))%nat.
Proof.
  intros L.
  assert (M : forall c : float,
             (b2 <? c)%float = true -> (b1 <? c)%float = true)
    by (intros c; apply leb_ltb_trans; exact L).
  pose proof (M 18.5%float) as M1. pose proof (M 25%float) as M2.
  pose proof (M 30%float) as M3. unfold band_of_float.
  destruct (b2 <? 18.5)%float;
    [ rewrite (M1 eq_refl); cbn; lia | ].
  destruct (b2 <? 25)%float;
    [ rewrite (M2 eq_refl); destruct (b1 <? 18.5)%float; cbn; lia | ].
  destruct (b2 <? 30)%float;
    [ rewrite (M3 eq_refl);
      destruct (b1 <? 18.5)%float, (b1 <? 25)%float; cbn; lia | ].
  destruct (b1 <? 18.5)%float, (b1 <? 25)%float, (b1 <? 30)%float;
    cbn; lia.
Qed.

(** At a given height, a larger weight never gives a smaller BMI, nor a
    lower band: for heights and weights the widgets offer, w1 <= w2 implies
    bmi(w1) <= bmi(w2) as computed, and the band of the first is not above
    the band of the second. *)
Theorem bmi_monotone_in_weight
    (libm_pow : float -> float -> float) (height_cm w1 w2 : Z) :
  pow_faithful libm_pow ->
  height_cm_min <= height_cm <= height_cm_max ->
  weight_kg_min <= w1 -> w1 <= w2 -> w2 <= weight_kg_max ->
  exists b1 b2 : float,
    compute_bmi libm_pow height_cm w1 = Ok b1 /\
    compute_bmi libm_pow height_cm w2 = Ok b2 /\
    (b1 <=? b2)%float = true /\
    bmi_comment b1 = band_comment (band_of_float b1) /\
    bmi_comment b2 = band_comment (band_of_float b2) /\
    (band_rank (band_of_float b1) <= band_rank (band_of_float b2))%nat.
Proof.
  intros Hpow Hh H1 H12 H2.
  destruct (square_positive libm_pow height_cm Hpow Hh)
    as (m & Hm & _ & Hsq & _ & Hdiv).
  assert (Hbmi : forall (w : Z) (x : float),
             float_of_int w = Ok x ->
             compute_bmi libm_pow height_cm w
             = Ok (x / libm_pow m 2)%float).
  { intros w x Hx. unfold compute_bmi. rewrite Hm. cbn [bind].
    rewrite Hsq. cbn [bind]. rewrite Hx. cbn [bind]. apply Hdiv. }
  assert (L : exists x y : float,
             float_of_int w1 = Ok x /\ float_of_int w2 = Ok y /\
             (x / libm_pow m 2 <=? y / libm_pow m 2)%float = true).
  { destruct (Z.eq_dec w1 w2) as [<- | Hne].
    - (* the same weight: its quotient is a number *)
      destruct (Z.eq_dec w1 weight_kg_max) as [E | NE].
      + destruct (quotient_ascends libm_pow height_cm m Hpow Hh Hm 0
                    (w1 - 1))
          as (x & y & _ & Hy & Le);
          [ unfold weight_kg_min, weight_kg_max in *; lia
          | unfold weight_kg_min, weight_kg_max in *; lia | ].
        replace (w1 - 1 + Z.of_nat 0 + 1) with w1 in Hy by lia.
        exists y, y. repeat split; try assumption.
        apply TablesMore.leb_refl. exact (proj2 (leb_number _ _ Le)).
      + destruct (quotient_ascends libm_pow height_cm m Hpow Hh Hm 0 w1)
          as (x & y & Hx & _ & Le); [ lia | lia | ].
        exists x, x. repeat split; try assumption.
        apply TablesMore.leb_refl. exact (proj1 (leb_number _ _ Le)).
    - destruct (quotient_ascends libm_pow height_cm m Hpow Hh Hm
                  (Z.to_nat (w2 - w1 - 1)) w1)
        as (x & y & Hx & Hy & Le); [ lia | lia | ].
      replace (w1 + Z.of_nat (Z.to_nat (w2 - w1 - 1)) + 1) with w2 in Hy
        by lia.
      exists x, y. repeat split; assumption. }
  destruct L as (x & y & Hx & Hy & Le).
  exists (x / libm_pow m 2)%float, (y / libm_pow m 2)%float.
  repeat split; try (apply Hbmi; assumption); try assumption;
    try apply bmi_comment_band.
  apply band_monotone. exact Le.
Qed.

Lemma bmi_monotone_in_weight_witness :
  exists b1 b2 : float,
    compute_bmi pow_correctly_rounded 170 60 = Ok b1 /\
    compute_bmi pow_correctly_rounded 170 90 = Ok b2 /\
    (b1 <=? b2)%float = true /\
    bmi_comment b1 = band_comment (band_of_float b1) /\
    bmi_comment b2 = band_comment (band_of_float b2) /\
    (band_rank (band_of_float b1) <= band_rank (band_of_float b2))%nat.
Proof.
  apply (bmi_monotone_in_weight pow_correctly_rounded 170 60 90).
  - intros x. left. reflexivity.
  - unfold height_cm_min, height_cm_max. lia.
  - unfold weight_kg_min. lia.
  - lia.
  - unfold weight_kg_max. lia.
Defined.

End BmiMore.
